(** * Roboflow inference: model artefact acquisition, environment bootstrap,
      input geometry and batch preprocessing.

    A shallow embedding of [inference/core/models/roboflow.py],
    [inference/core/roboflow_api.py] and [inference/models/doctr/doctr_model.py].
    Python code that raises is embedded in an error monad over an explicit
    world (cache files and a trace of calls to outside collaborators). *)

From Stdlib Require Import ZArith QArith String Ascii List Lia.
From stdpp Require Import base option list sorting gmap strings.

Set Warnings "-register-all".

Local Open Scope string_scope.
Local Open Scope list_scope.

(** ** Exceptions *)

(** The exception classes the three modules raise or let through.  The
    last constructor stands for the classes deriving from [BaseException]
    only, which an [except Exception] clause does not catch. *)
Inductive exn : Type :=
  | MissingApiKeyError
  | ModelArtefactError
  | OnnxProviderNotAvailable
  | TensorrtRoboflowAPIError
  | RoboflowAPIConnectionError
  | RoboflowAPIRequestError
  | ModelDataFetchingError
  | MalformedRoboflowAPIResponseError
  | ArtifactDownloadError
  | ConnectionError
  | HTTPError
  | InvalidJSONError
  | JSONDecodeError
  | NotImplementedError
  | AttributeError
  | FileNotFoundError
  | TypeError
  | ValueError
  | OverflowError
  | KeyError
  | IndexError
  | UnboundLocalError
  | OtherException (name : string)
  | KeyboardInterrupt.

(** [isinstance(e, Exception)]. *)
Definition is_Exception (e : exn) : bool :=
  match e with
  | KeyboardInterrupt => false
  | _ => true
  end.

(** A computation that either raises or returns. *)
Definition result (A : Type) : Type := (exn + A)%type.

Definition raise {A} (e : exn) : result A := inl e.
Definition ok {A} (a : A) : result A := inr a.

Definition rbind {A B} (r : result A) (k : A -> result B) : result B :=
  match r with
  | inl e => inl e
  | inr a => k a
  end.

Notation "'let?' x ':=' r 'in' k" := (rbind r (fun x => k))
  (at level 10, x name, r at level 200, k at level 200).

(** ** Python strings *)

(** [s.split(sep)] for a one-character separator: always at least one
    segment, empty segments kept. *)
Fixpoint str_split (sep : ascii) (s : string) : list string :=
  match s with
  | EmptyString => [EmptyString]
  | String c r =>
      if Ascii.eqb c sep then EmptyString :: str_split sep r
      else match str_split sep r with
           | h :: t => String c h :: t
           | [] => [String c EmptyString]
           end
  end.

(** How many times a character occurs in a string. *)
Fixpoint str_count (sep : ascii) (s : string) : nat :=
  match s with
  | EmptyString => 0
  | String c r => (if Ascii.eqb c sep then 1 else 0) + str_count sep r
  end.

Definition slash : ascii := "/"%char.

(** [s.endswith("/")] *)
Fixpoint str_ends_with_slash (s : string) : bool :=
  match s with
  | EmptyString => false
  | String c EmptyString => Ascii.eqb c slash
  | String _ r => str_ends_with_slash r
  end.

(** [os.path.join(a, b)] on POSIX. *)
Definition path_join (a b : string) : string :=
  match b with
  | String c _ =>
      if Ascii.eqb c slash then b
      else if String.eqb a "" || str_ends_with_slash a then a ++ b
      else a ++ "/" ++ b
  | EmptyString =>
      if String.eqb a "" || str_ends_with_slash a then a else a ++ "/"
  end.

(** The truth value of an optional string setting ([None] and the empty
    string are false). *)
Definition truthy_str (o : option string) : bool :=
  match o with
  | Some s => negb (String.eqb s "")
  | None => false
  end.

(** ** JSON values as Python objects *)

(** A Python [float]: a finite binary float is a rational; the two
    infinities and NaN are kept apart. *)
Inductive pyfloat : Type :=
  | FFinite (q : Q)
  | FInf (negative : bool)
  | FNan.

(** What [json.load] builds (with [object_pairs_hook=OrderedDict] a JSON
    object is a dictionary in insertion order): the fields of [JObj] are in
    insertion order and a key occurs once. *)
Inductive json : Type :=
  | JNull
  | JBool (b : bool)
  | JInt (n : Z)
  | JFloat (f : pyfloat)
  | JStr (s : string)
  | JList (l : list json)
  | JObj (fields : list (string * json)).

Abbreviation pydict := (list (string * json)).

(** [d.get(k)] / [d[k]] without the exception. *)
Fixpoint dict_get (k : string) (d : pydict) : option json :=
  match d with
  | [] => None
  | (k', v) :: r => if String.eqb k k' then Some v else dict_get k r
  end.

(** [k in d] *)
Definition dict_mem (k : string) (d : pydict) : bool :=
  match dict_get k d with Some _ => true | None => false end.

(** [d[k]]: [KeyError] on a missing key. *)
Definition dict_index (k : string) (d : pydict) : result json :=
  match dict_get k d with Some v => ok v | None => raise KeyError end.

(** [d[k] = v]: an existing key keeps its place, a new one goes last. *)
Fixpoint dict_set (k : string) (v : json) (d : pydict) : pydict :=
  match d with
  | [] => [(k, v)]
  | (k', v') :: r =>
      if String.eqb k k' then (k', v) :: r else (k', v') :: dict_set k v r
  end.

(** [d.keys()], in insertion order. *)
Definition dict_keys (d : pydict) : list string := map fst d.

(** [bool(v)] *)
Definition truthy (v : json) : bool :=
  match v with
  | JNull => false
  | JBool b => b
  | JInt n => negb (Z.eqb n 0)
  | JFloat (FFinite q) => negb (Z.eqb (Qnum q) 0)
  | JFloat _ => true
  | JStr s => negb (String.eqb s "")
  | JList l => match l with [] => false | _ => true end
  | JObj d => match d with [] => false | _ => true end
  end.

(** [isinstance(v, str)] *)
Definition is_str (v : json) : bool :=
  match v with JStr _ => true | _ => false end.

(** [issubclass(type(v), dict)] *)
Definition is_dict (v : json) : bool :=
  match v with JObj _ => true | _ => false end.

(** [v[k]] on an arbitrary object: only a dictionary can be indexed by a
    string key. *)
Definition py_index (v : json) (k : string) : result json :=
  match v with
  | JObj d => dict_index k d
  | _ => raise TypeError
  end.

Section Builtins.

(** [int(s)] on a string is the interpreter's parser: [None] stands for
    the [ValueError] it raises on a malformed literal. *)
Variable int_of_str : string -> option Z.

(** [int(v)] *)
Definition py_int (v : json) : result Z :=
  match v with
  | JInt n => ok n
  | JBool b => ok (if b then 1 else 0)%Z
  | JFloat (FFinite q) => ok (Z.quot (Qnum q) (Zpos (Qden q)))
  | JFloat (FInf _) => raise OverflowError
  | JFloat FNan => raise ValueError
  | JStr s => match int_of_str s with Some n => ok n | None => raise ValueError end
  | JNull | JList _ | JObj _ => raise TypeError
  end.

End Builtins.

(** [k in v] for a string [k]: key test on a dictionary, substring test on
    a string, element test on a list. *)
Fixpoint str_prefix (p s : string) : bool :=
  match p, s with
  | EmptyString, _ => true
  | String a p', String b s' => Ascii.eqb a b && str_prefix p' s'
  | String _ _, EmptyString => false
  end.

Fixpoint str_contains (p s : string) : bool :=
  str_prefix p s ||
  match s with
  | EmptyString => false
  | String _ s' => str_contains p s'
  end.

Definition py_contains (k : string) (v : json) : result bool :=
  match v with
  | JObj d => ok (dict_mem k d)
  | JStr s => ok (str_contains k s)
  | JList l => ok (existsb (fun x => match x with JStr s => String.eqb s k | _ => false end) l)
  | _ => raise TypeError
  end.

(** [l[i]] on a list, negative indices counting from the end. *)
Definition list_index {A} (l : list A) (i : Z) : result A :=
  let n := Z.of_nat (length l) in
  let j := if (i <? 0)%Z then (i + n)%Z else i in
  if (j <? 0)%Z then raise IndexError
  else match nth_error l (Z.to_nat j) with
       | Some v => ok v
       | None => raise IndexError
       end.

(** [v[k]] for arbitrary objects. *)
Definition py_getitem (v k : json) : result json :=
  match v, k with
  | JObj d, JStr s => dict_index s d
  | JObj _, (JList _ | JObj _) => raise TypeError
  | JObj _, _ => raise KeyError
  | JList l, JInt i => list_index l i
  | JList l, JBool b => list_index l (if b then 1 else 0)%Z
  | JStr s, JInt i =>
      let? c := list_index (list_ascii_of_string s) i in ok (JStr (String c EmptyString))
  | JStr s, JBool b =>
      let? c := list_index (list_ascii_of_string s) (if b then 1 else 0)%Z in
      ok (JStr (String c EmptyString))
  | _, _ => raise TypeError
  end.

(** The values [for k in v] goes through. *)
Definition py_iter (v : json) : result (list json) :=
  match v with
  | JObj d => ok (map JStr (dict_keys d))
  | JList l => ok l
  | JStr s => ok (map (fun c => JStr (String c EmptyString)) (list_ascii_of_string s))
  | _ => raise TypeError
  end.

(** [s.lower()], on ASCII letters. *)
Definition ascii_lower (c : ascii) : ascii :=
  let n := nat_of_ascii c in
  if (65 <=? n)%nat && (n <=? 90)%nat then ascii_of_nat (n + 32) else c.

Fixpoint str_lower (s : string) : string :=
  match s with
  | EmptyString => EmptyString
  | String c r => String (ascii_lower c) (str_lower r)
  end.

(** ** The world: cache files and calls to outside collaborators *)

Inductive content : Type :=
  | Bytes (b : string)
  | Json (j : json)
  | Lines (l : list string).

Inductive event : Type :=
  | CacheInit (dir : string)
  | CacheCheck (model_id : string) (files : list string)
  | S3Download (bucket : string) (keys : list string) (target_dir : string)
  | HttpGet (url : string)
  | Environ (key value : string)
  | MakeDirs (path : string)
  | CopyFile (src dst : string)
  | OcrPredictor (det_arch reco_arch : string)
  | CreateSession (weights_path : string).

(** A network operation is a bulk download from the object store or a
    request to the Roboflow API. *)
Definition is_network (e : event) : bool :=
  match e with
  | S3Download _ _ _ | HttpGet _ => true
  | _ => false
  end.

Definition is_s3_download (e : event) : bool :=
  match e with S3Download _ _ _ => true | _ => false end.

Definition is_api_request (e : event) : bool :=
  match e with HttpGet _ => true | _ => false end.

(** [trace] is in order of occurrence. *)
Record world : Type := World {
  fs : gmap string content;
  trace : list event
}.

Definition M (A : Type) : Type := world -> result A * world.

Definition ret {A} (a : A) : M A := fun w => (ok a, w).
Definition throw {A} (e : exn) : M A := fun w => (raise e, w).
Definition bind {A B} (c : M A) (k : A -> M B) : M B :=
  fun w => match c w with
           | (inl e, w') => (inl e, w')
           | (inr a, w') => k a w'
           end.
Definition lift {A} (r : result A) : M A := fun w => (r, w).
Definition emit (e : event) : M unit :=
  fun w => (ok tt, World (fs w) (trace w ++ [e])).
Definition write_file (path : string) (c : content) : M unit :=
  fun w => (ok tt, World (<[path := c]> (fs w)) (trace w)).

Notation "'let!' x ':=' c 'in' k" := (bind c (fun x => k))
  (at level 10, x name, c at level 200, k at level 200).
Notation "'do!' c 'in' k" := (bind c (fun _ => k))
  (at level 10, c at level 200, k at level 200).

(** [try: c except Exception as error: h error] *)
Definition try_except_Exception {A} (c : M A) (h : exn -> M A) : M A :=
  fun w => match c w with
           | (inl e, w') => if is_Exception e then h e w' else (inl e, w')
           | r => r
           end.

(** The events a computation adds to the trace of [w]. *)
Definition events_of {A} (c : M A) (w : world) : list event :=
  drop (length (trace w)) (trace (snd (c w))).

(** ** Process configuration and outside collaborators *)

(** The settings read from [inference.core.env] and
    [inference.core.devices.utils].  [boto3_client_constructed] says whether
    importing [boto3] and building the S3 client at import time goes through
    without an exception. *)
Record config : Type := Config {
  API_BASE_URL : string;
  API_KEY : option string;
  AWS_ACCESS_KEY_ID : option string;
  AWS_SECRET_ACCESS_KEY : option string;
  LAMBDA : bool;
  INFER_BUCKET : string;
  MODEL_CACHE_DIR : string;
  GLOBAL_DEVICE_ID : string;
  REQUIRED_ONNX_PROVIDERS : list string;
  DISABLE_PREPROC_AUTO_ORIENT : bool;
  boto3_client_constructed : bool
}.

Record response : Type := Response {
  status_code : Z;
  body : string;
  json_body : option json
}.

(** What lies outside the process.  Each answer may depend on the calls made
    so far.  [s3_transfer] gives the files the bulk download leaves in the
    target directory and the exception it ends with, if any;
    [download_was_slow] is the test [perf_counter() - t1 > 120];
    [inference_session] gives the name and the shape of the first input of
    the ONNX session built from a weights file. *)
Record host : Type := Host {
  wrap_url : json -> result string;
  requests_get : list event -> string -> result response;
  s3_transfer : list event -> string -> list string -> string ->
                list (string * content) * option exn;
  download_was_slow : list event -> bool;
  inference_session : list event -> string -> result (string * list json);
  get_available_providers : list string
}.

Section Process.

Variable cfg : config.
Variable h : host.

(** The parser behind [json.loads] on a string ([None]: the text is not
    JSON) and the one behind [int] on a string. *)
Variable json_parse : string -> option json.
Variable int_of_str : string -> option Z.

(** [json.loads(v)] *)
Definition json_loads (v : json) : result json :=
  match v with
  | JStr s => match json_parse s with
              | Some j => ok j
              | None => raise JSONDecodeError
              end
  | _ => raise TypeError
  end.

(** [S3_CLIENT], set when the module is imported.  The guard reads
    [AWS_ACCESS_KEY_ID] twice. *)
Definition S3_CLIENT : option unit :=
  if truthy_str (AWS_ACCESS_KEY_ID cfg) && truthy_str (AWS_ACCESS_KEY_ID cfg)
  then (if boto3_client_constructed cfg then Some tt else None)
  else None.

(** The truth value of
    [AWS_ACCESS_KEY_ID and AWS_SECRET_ACCESS_KEY and LAMBDA and S3_CLIENT is not None]. *)
Definition is_model_artefacts_bucket_available : bool :=
  truthy_str (AWS_ACCESS_KEY_ID cfg) &&
  (truthy_str (AWS_SECRET_ACCESS_KEY cfg) &&
   (LAMBDA cfg && match S3_CLIENT with Some _ => true | None => false end)).

(** *** The cache module *)

(** Modelled from the spec: [inference.core.cache.model_artefacts] is not
    among the sources.  The cache directory of a model is
    [<cacheRoot>/<datasetId>/<versionId>]; a call that leaves [model_id] out
    addresses the cache root. *)
Definition get_cache_dir (model_id : option string) : string :=
  match model_id with
  | Some m => path_join (MODEL_CACHE_DIR cfg) m
  | None => MODEL_CACHE_DIR cfg
  end.

(** Modelled from the spec: [<cacheRoot>/<datasetId>/<versionId>/<filename>]. *)
Definition get_cache_file_path (file : string) (model_id : option string) : string :=
  path_join (get_cache_dir model_id) file.

(** Modelled from the spec: [exists(modelId, filenames)] is true only if
    every named file exists under the model's cache directory. *)
Definition all_files_present (files : list string) (model_id : string) (w : world) : bool :=
  forallb (fun f => bool_decide (is_Some (fs w !! get_cache_file_path f (Some model_id)))) files.

Definition are_all_files_cached (files : list string) (model_id : string) : M bool :=
  fun w => (ok (all_files_present files model_id w),
            World (fs w) (trace w ++ [CacheCheck model_id files])).

(** Modelled from the spec: the per-model directory is created. *)
Definition initialise_cache (model_id : string) : M unit :=
  emit (CacheInit (get_cache_dir (Some model_id))).

(** Modelled from the spec: [saveBytes(modelId, filename, content)]. *)
Definition save_bytes_in_cache (content : string) (file : string)
    (model_id : option string) : M unit :=
  write_file (get_cache_file_path file model_id) (Bytes content).

(** Modelled from the spec: [saveJSON(modelId, filename, content)]. *)
Definition save_json_in_cache (content : json) (file : string)
    (model_id : option string) : M unit :=
  write_file (get_cache_file_path file model_id) (Json content).

(** Modelled from the spec: [saveTextLines(modelId, filename, content)];
    the content is a list of strings. *)
Fixpoint text_lines (l : list json) : result (list string) :=
  match l with
  | [] => ok []
  | JStr s :: r => let? t := text_lines r in ok (s :: t)
  | _ :: _ => raise TypeError
  end.

Definition save_text_lines_in_cache (content : json) (file : string)
    (model_id : option string) : M unit :=
  match content with
  | JList l =>
      let! lines := lift (text_lines l) in
      write_file (get_cache_file_path file model_id) (Lines lines)
  | _ => throw TypeError
  end.

(** Modelled from the spec: [loadJSON(modelId, filename)]; reading a file
    that is not there fails. *)
Definition load_json_from_cache (file : string) (model_id : option string) : M json :=
  fun w => match fs w !! get_cache_file_path file model_id with
           | Some (Json j) => (ok j, w)
           | Some _ => (raise JSONDecodeError, w)
           | None => (raise FileNotFoundError, w)
           end.

(** Modelled from the spec: [loadTextLines(modelId, filename)]. *)
Definition load_text_file_from_cache (file : string) (model_id : option string)
    : M (list string) :=
  fun w => match fs w !! get_cache_file_path file model_id with
           | Some (Lines l) => (ok l, w)
           | Some _ => (raise TypeError, w)
           | None => (raise FileNotFoundError, w)
           end.

(** Modelled from the spec: [listAndDownload(bucket, keys, targetDir)] of
    [inference.core.utils.s3], which is not among the sources. *)
Definition download_s3_files_to_directory (bucket : string) (keys : list string)
    (target_dir : string) (s3_client : option unit) : M unit :=
  fun w =>
    let '(written, err) := s3_transfer h (trace w) bucket keys target_dir in
    (match err with Some e => raise e | None => ok tt end,
     World (foldr (fun kv m => <[kv.1 := kv.2]> m) (fs w) written)
           (trace w ++ [S3Download bucket keys target_dir])).

(** *** [inference.core.roboflow_api] *)

Inductive ModelEndpointType : Type := ORT | CORE_MODEL.

Definition endpoint_value (t : ModelEndpointType) : string :=
  match t with ORT => "ort" | CORE_MODEL => "core_model" end.

(** [requests.get(url)] *)
Definition requests_get_call (url : string) : M response :=
  fun w => (requests_get h (trace w) url,
            World (fs w) (trace w ++ [HttpGet url])).

(** [response.raise_for_status()] *)
Definition raise_for_status (r : response) : result unit :=
  if (400 <=? status_code r)%Z && (status_code r <? 600)%Z
  then raise HTTPError else ok tt.

(** [response.json()] *)
Definition response_json (r : response) : result json :=
  match json_body r with
  | Some j => ok j
  | None => raise InvalidJSONError
  end.

(** The decorator: both handlers used in the module raise, so a handler is
    given by the exception it raises. *)
Definition wrap_roboflow_api_errors {A} (on_connection_error on_http_error : exn)
    (function : M A) : M A :=
  fun w => match function w with
           | (inl ConnectionError, w') => (raise on_connection_error, w')
           | (inl HTTPError, w') => (raise on_http_error, w')
           | (inl InvalidJSONError, w') => (raise MalformedRoboflowAPIResponseError, w')
           | r => r
           end.

(** [str(x)] in an f-string, for an optional string. *)
Definition str_of (o : option string) : string :=
  match o with Some s => s | None => "None" end.

Definition get_roboflow_model_data (api_key : option string) (model_id : string)
    (endpoint_type : ModelEndpointType) (device_id : string) : M json :=
  wrap_roboflow_api_errors RoboflowAPIConnectionError ModelDataFetchingError
    (let! api_url := lift (wrap_url h (JStr
        (API_BASE_URL cfg ++ "/" ++ endpoint_value endpoint_type ++ "/" ++ model_id
         ++ "?api_key=" ++ str_of api_key ++ "&device=" ++ device_id
         ++ "&nocache=true&dynamic=true"))) in
     let! model_data := requests_get_call api_url in
     do! lift (raise_for_status model_data) in
     lift (response_json model_data)).

(** [get_from_roboflow_api(url)], the response itself. *)
Definition get_from_roboflow_api (url : json) : M response :=
  wrap_roboflow_api_errors RoboflowAPIConnectionError RoboflowAPIRequestError
    (let! u := lift (wrap_url h url) in
     requests_get_call u).

(** [get_from_roboflow_api(url, json_response=True)] *)
Definition get_from_roboflow_api_json (url : json) : M json :=
  wrap_roboflow_api_errors RoboflowAPIConnectionError RoboflowAPIRequestError
    (let! u := lift (wrap_url h url) in
     let! response := requests_get_call u in
     lift (response_json response)).

(** *** Model classes *)

(** The two members a subclass overrides; in the base classes both raise
    [NotImplementedError]. *)
Record variant : Type := Variant {
  get_infer_bucket_file_list : result (list string);
  weights_file : result string
}.

Definition RoboflowInferenceModel_class : variant :=
  Variant (raise NotImplementedError) (raise NotImplementedError).

Definition RoboflowCoreModel_class : variant :=
  Variant (raise NotImplementedError) (raise NotImplementedError).

Definition OnnxRoboflowInferenceModel_class : variant :=
  Variant (ok ["environment.json"; "class_names.txt"]) (ok "weights.onnx").

Definition OnnxRoboflowCoreModel_class : variant := RoboflowCoreModel_class.

Definition DocTR_class : variant :=
  Variant (ok ["model.pt"]) (raise NotImplementedError).

Definition DocTRRec_class : variant :=
  Variant (ok ["model.pt"]) (raise NotImplementedError).

Definition DocTRDet_class : variant :=
  Variant (ok ["model.pt"]) (raise NotImplementedError).

(** The attributes [RoboflowInferenceModel.__init__] sets. *)
Record model : Type := Model {
  class_of : variant;
  api_key : option string;
  dataset_id : string;
  version_id : string;
  endpoint : string;
  device_id : string;
  cache_dir : string
}.

(** [RoboflowInferenceModel.__init__] *)
Definition RoboflowInferenceModel_init (c : variant) (model_id : string)
    (cache_dir_root : string) (key : option string) : M model :=
  let api_key := if truthy_str key then key else API_KEY cfg in
  if negb (truthy_str api_key) &&
     negb (truthy_str (AWS_SECRET_ACCESS_KEY cfg) &&
           (truthy_str (AWS_ACCESS_KEY_ID cfg) && LAMBDA cfg))
  then throw MissingApiKeyError
  else
    match str_split slash model_id with
    | [dataset_id; version_id] =>
        do! initialise_cache model_id in
        ret (Model c api_key dataset_id version_id model_id (GLOBAL_DEVICE_ID cfg)
                   (path_join cache_dir_root model_id))
    | _ => throw ValueError
    end.

(** [get_all_required_infer_bucket_file] *)
Definition get_all_required_infer_bucket_file (self : model) : result (list string) :=
  let? infer_bucket_files := get_infer_bucket_file_list (class_of self) in
  let? w := weights_file (class_of self) in
  ok (infer_bucket_files ++ [w]).

(** [download_model_artefacts_from_s3] *)
Definition download_model_artefacts_from_s3 (self : model) : M unit :=
  try_except_Exception
    (let! infer_bucket_files := lift (get_all_required_infer_bucket_file self) in
     let cache_directory := get_cache_dir (Some (endpoint self)) in
     let s3_keys := map (fun file => (endpoint self ++ "/" ++ file)%string) infer_bucket_files in
     download_s3_files_to_directory (INFER_BUCKET cfg) s3_keys cache_directory S3_CLIENT)
    (fun error => throw ModelArtefactError).

(** [download_model_artefacts_from_roboflow_api] *)
Definition download_model_artefacts_from_roboflow_api (self : model) : M unit :=
  let! api_data := get_roboflow_model_data (api_key self) (endpoint self) ORT
                     (device_id self) in
  match api_data with
  | JObj d =>
      if negb (dict_mem "ort" d) then throw ModelArtefactError
      else
        let! api_data := lift (dict_index "ort" d) in
        let! has_classes := lift (py_contains "classes" api_data) in
        do! (if has_classes
             then let! classes := lift (py_index api_data "classes") in
                  save_text_lines_in_cache classes "class_names.txt" None
             else ret tt) in
        let! has_model := lift (py_contains "model" api_data) in
        if negb has_model then throw ModelArtefactError
        else
          let! has_environment := lift (py_contains "environment" api_data) in
          if negb has_environment then throw ModelArtefactError
          else
            let! environment_url := lift (py_index api_data "environment") in
            let! environment := get_from_roboflow_api_json environment_url in
            let! model_url := lift (py_index api_data "model") in
            let! model_weights_response := get_from_roboflow_api model_url in
            let! weights := lift (weights_file (class_of self)) in
            do! save_bytes_in_cache (body model_weights_response) weights
                  (Some (endpoint self)) in
            let! has_colors := lift (py_contains "colors" api_data) in
            let! environment :=
              (if has_colors
               then let! colors := lift (py_index api_data "colors") in
                    match environment with
                    | JObj e => ret (JObj (dict_set "COLORS" colors e))
                    | _ => throw TypeError
                    end
               else ret environment) in
            save_json_in_cache environment "environment.json" None
  | _ => throw AttributeError
  end.

(** [cache_model_artefacts] *)
Definition cache_model_artefacts (self : model) : M unit :=
  let! infer_bucket_files := lift (get_all_required_infer_bucket_file self) in
  let! cached := are_all_files_cached infer_bucket_files (endpoint self) in
  if cached then ret tt
  else if is_model_artefacts_bucket_available
       then download_model_artefacts_from_s3 self
       else download_model_artefacts_from_roboflow_api self.

(** *** Core models *)

(** The body of the loop of [download_mode_from_roboflow_api]: the keys were
    taken from the first answer, while [api_data] may have been refreshed. *)
Fixpoint download_each_weight (self : model) (keys : list json) (api_data : json)
    : M unit :=
  match keys with
  | [] => ret tt
  | weights_url_key :: rest =>
      let! weights := lift (py_index api_data "weights") in
      let! location := lift (py_getitem weights weights_url_key) in
      let! weights_url := lift (wrap_url h location) in
      let! model_weights_response := get_from_roboflow_api (JStr weights_url) in
      let filename :=
        List.last (str_split slash (hd "" (str_split "?"%char weights_url))) "" in
      do! save_bytes_in_cache (body model_weights_response) filename
            (Some (endpoint self)) in
      let! slow := (fun w => (ok (download_was_slow h (trace w)), w)) in
      let! api_data :=
        (if slow : bool
         then get_roboflow_model_data (api_key self) (endpoint self) CORE_MODEL
                (device_id self)
         else ret api_data) in
      download_each_weight self rest api_data
  end.

(** [download_mode_from_roboflow_api] *)
Definition download_mode_from_roboflow_api (self : model) : M unit :=
  let! api_data := get_roboflow_model_data (api_key self) (endpoint self) CORE_MODEL
                     (device_id self) in
  let! has_weights := lift (py_contains "weights" api_data) in
  if negb has_weights then throw ModelArtefactError
  else
    let! weights := lift (py_index api_data "weights") in
    let! keys := lift (py_iter weights) in
    download_each_weight self keys api_data.

(** [RoboflowCoreModel.download_weights] *)
Definition download_weights (self : model) : M unit :=
  let! infer_bucket_files := lift (get_infer_bucket_file_list (class_of self)) in
  let! cached := are_all_files_cached infer_bucket_files (endpoint self) in
  if cached then ret tt
  else if is_model_artefacts_bucket_available
       then download_model_artefacts_from_s3 self
       else download_mode_from_roboflow_api self.

(** [RoboflowCoreModel.__init__] *)
Definition RoboflowCoreModel_init (c : variant) (model_id : string)
    (key : option string) : M model :=
  let! self := RoboflowInferenceModel_init c model_id (MODEL_CACHE_DIR cfg) key in
  do! download_weights self in
  ret self.

(** *** [inference.models.doctr.doctr_model] *)

(** Reading a local variable of a function: a name the body assigns is
    local from the start, and is unbound until its first assignment. *)
Definition load_local (name : string) (locals : pydict) : result json :=
  match dict_get name locals with
  | Some v => ok v
  | None => raise UnboundLocalError
  end.

(** [v.lower()] *)
Definition py_lower (v : json) : result json :=
  match v with
  | JStr s => ok (JStr (str_lower s))
  | _ => raise AttributeError
  end.

(** [shutil.copyfile(src, dst)] *)
Definition copyfile (src dst : string) : M unit :=
  fun w => match fs w !! src with
           | Some c => (ok tt, World (<[dst := c]> (fs w)) (trace w ++ [CopyFile src dst]))
           | None => (raise FileNotFoundError, w)
           end.

(** An API key handed over as a keyword argument: a string or [None]. *)
Definition api_key_argument (v : option json) : option string :=
  match v with
  | Some (JStr s) => Some s
  | _ => None
  end.

(** [DocTRDet(api_key=key)] *)
Definition DocTRDet_init (key : option string) : M model :=
  do! lift (get_infer_bucket_file_list DocTRDet_class) in
  RoboflowCoreModel_init DocTRDet_class "doctr_det/db_resnet50" key.

(** [DocTRRec(api_key=key)] *)
Definition DocTRRec_init (key : option string) : M model :=
  do! lift (get_infer_bucket_file_list DocTRRec_class) in
  RoboflowCoreModel_init DocTRRec_class "doctr_rec/crnn_vgg16_bn" key.

(** [DocTR.__init__(self, *args, **kwargs)]: the result is the pair of
    architectures [self.model] is built from.  The parameters are [self],
    [args] and [kwargs]; [model_id] is a local the body assigns. *)
Definition DocTR_init (args : list json) (kwargs : pydict) : M (string * string) :=
  let locals : pydict := [("args", JList args); ("kwargs", JObj kwargs)] in
  let! model_id := lift (load_local "model_id" locals) in
  let! lowered := lift (py_lower model_id) in
  let locals := dict_set "model_id" lowered locals in
  do! emit (Environ "DOCTR_CACHE_DIR" (path_join (MODEL_CACHE_DIR cfg) "doctr_rec")) in
  let! det_model := DocTRDet_init (api_key_argument (dict_get "api_key" kwargs)) in
  let! rec_model := DocTRRec_init (api_key_argument (dict_get "api_key" kwargs)) in
  do! emit (MakeDirs "/tmp/cache/doctr_rec/models/") in
  do! emit (MakeDirs "/tmp/cache/doctr_det/models/") in
  do! copyfile "/tmp/cache/doctr_det/db_resnet50/model.pt"
        "/tmp/cache/doctr_det/models/db_resnet50-ac60cadc.pt" in
  do! copyfile "/tmp/cache/doctr_rec/crnn_vgg16_bn/model.pt"
        "/tmp/cache/doctr_rec/models/crnn_vgg16_bn-9762b0b0.pt" in
  do! emit (OcrPredictor (version_id det_model) (version_id rec_model)) in
  ret (version_id det_model, version_id rec_model).

(** *** Environment bootstrap *)

(** Python compares strings character by character, by code point; on
    UTF-8 bytes this is the order of [String.leb]. *)
Definition string_le (a b : string) : Prop := String.leb a b = true.

#[global] Instance string_le_dec : RelDecision string_le.
Proof. intros a b. unfold string_le. apply _. Defined.

#[global] Instance string_le_total : Total string_le.
Proof. intros a b. apply String.leb_total. Qed.

(** [sorted(keys)] *)
Definition sorted_keys (keys : list string) : list string :=
  merge_sort string_le keys.

(** A list comprehension whose element expression may raise. *)
Fixpoint comprehension {A B} (f : A -> result B) (l : list A) : result (list B) :=
  match l with
  | [] => ok []
  | x :: r => let? y := f x in let? t := comprehension f r in ok (y :: t)
  end.

(** [class_mapping_not_available_in_environment] *)
Definition class_mapping_not_available_in_environment (environment : json)
    : result bool :=
  let? present := py_contains "CLASS_MAP" environment in
  if negb present then ok true
  else let? class_map := py_index environment "CLASS_MAP" in
       ok (negb (is_dict class_map)).

(** [get_class_names_from_environment_file]; [JNull] is [None]. *)
Definition get_class_names_from_environment_file (environment : json)
    : result (list json) :=
  match environment with
  | JNull => raise ModelArtefactError
  | _ =>
      let? missing := class_mapping_not_available_in_environment environment in
      if missing then raise ModelArtefactError
      else
        let? class_map := py_index environment "CLASS_MAP" in
        match class_map with
        | JObj d => comprehension (fun key => dict_index key d) (sorted_keys (dict_keys d))
        | _ => raise AttributeError
        end
  end.

Definition DEFAULT_COLOR_PALETTE : list string :=
  [ "#4892EA"; "#00EEC3"; "#FE4EF0"; "#F4004E"; "#FA7200";
    "#EEEE17"; "#90FF00"; "#78C1D2"; "#8C29FF" ].

(** [color_mapping_available_in_environment] *)
Definition color_mapping_available_in_environment (environment : json) : result bool :=
  match environment with
  | JNull => ok false
  | _ =>
      let? present := py_contains "COLORS" environment in
      if present
      then let? colors := py_index environment "COLORS" in ok (is_dict colors)
      else ok false
  end.

(** Dictionaries whose keys are arbitrary hashable values: [hashable] says
    whether [hash(v)] is defined, and [key_eqb] is the test a dictionary makes
    on two keys, [a is b or a == b].  A NaN equals no value under [==], but
    [json.load] hands out one and the same object for every NaN it reads, so
    two NaN keys met here are the same object and a dictionary keeps one entry
    for them. *)
Definition hashable (v : json) : bool :=
  match v with
  | JList _ | JObj _ => false
  | _ => true
  end.

Definition number_of (v : json) : option Q :=
  match v with
  | JInt n => Some (inject_Z n)
  | JBool b => Some (inject_Z (if b then 1 else 0))
  | JFloat (FFinite q) => Some q
  | _ => None
  end.

Definition key_eqb (a b : json) : bool :=
  match a, b with
  | JNull, JNull => true
  | JStr s, JStr t => String.eqb s t
  | JFloat (FInf x), JFloat (FInf y) => Bool.eqb x y
  | JFloat FNan, JFloat FNan => true
  | _, _ => match number_of a, number_of b with
            | Some p, Some q => Qeq_bool p q
            | _, _ => false
            end
  end.

Fixpoint kdict_set (k : json) (v : string) (m : list (json * string))
    : list (json * string) :=
  match m with
  | [] => [(k, v)]
  | (k', v') :: r =>
      if key_eqb k k' then (k', v) :: r else (k', v') :: kdict_set k v r
  end.

Fixpoint kdict_get (k : json) (m : list (json * string)) : option string :=
  match m with
  | [] => None
  | (k', v) :: r => if key_eqb k k' then Some v else kdict_get k r
  end.

(** [DEFAULT_COLOR_PALETTE[i % len(DEFAULT_COLOR_PALETTE)]] *)
Definition palette_color (i : nat) : string :=
  nth (i mod length DEFAULT_COLOR_PALETTE) DEFAULT_COLOR_PALETTE "".

(** [{class_name: ... for i, class_name in enumerate(class_names)}], from
    index [i] on, added to [acc]. *)
Fixpoint assign_colors (i : nat) (class_names : list json)
    (acc : list (json * string)) : result (list (json * string)) :=
  match class_names with
  | [] => ok acc
  | class_name :: r =>
      if hashable class_name
      then assign_colors (S i) r (kdict_set class_name (palette_color i) acc)
      else raise TypeError
  end.

(** What [get_color_mapping_from_environment] returns: the object
    [json.loads] gave, or the dictionary built from the palette. *)
Inductive color_map : Type :=
  | ExplicitColors (j : json)
  | PaletteColors (m : list (json * string)).

(** [get_color_mapping_from_environment] *)
Definition get_color_mapping_from_environment (environment : json)
    (class_names : list json) : result color_map :=
  let? available := color_mapping_available_in_environment environment in
  if available
  then let? colors := py_index environment "COLORS" in
       let? loaded := json_loads colors in
       ok (ExplicitColors loaded)
  else let? m := assign_colors 0 class_names [] in
       ok (PaletteColors m).

(** The attributes [load_model_artefacts_from_cache] sets. *)
Record artefacts : Type := Artefacts {
  environment : json;
  class_names : list json;
  colors : color_map;
  num_classes : nat;
  preproc : json;
  resize_method : string
}.

(** [v.get(k, default)]: only a dictionary has the method. *)
Definition py_get (v : json) (k : string) (default : json) : result json :=
  match v with
  | JObj d => ok (match dict_get k d with Some x => x | None => default end)
  | _ => raise AttributeError
  end.

Definition recognised_resize_methods : list string :=
  ["Stretch to"; "Fit (black edges) in"; "Fit (white edges) in"].

(** The choice of [self.resize_method] from the parsed [PREPROCESSING]. *)
Definition select_resize_method (preproc : json) : result string :=
  let? resize := py_get preproc "resize" JNull in
  if truthy resize
  then let? resize := py_index preproc "resize" in
       let? format := py_get resize "format" (JStr "Stretch to") in
       match format with
       | JStr m => if existsb (String.eqb m) recognised_resize_methods
                   then ok m else ok "Stretch to"
       | _ => ok "Stretch to"
       end
  else ok "Stretch to".

(** [load_model_artefacts_from_cache].  [self.environment] is set only when
    [environment.json] is in the file list; reading it otherwise is an
    [AttributeError]. *)
Definition load_model_artefacts_from_cache (self : model) : M artefacts :=
  let! infer_bucket_files := lift (get_all_required_infer_bucket_file self) in
  let! self_environment :=
    (if existsb (String.eqb "environment.json") infer_bucket_files
     then let! e := load_json_from_cache "environment.json" (Some (endpoint self)) in
          ret (Some e)
     else ret None) in
  let read_environment : M json :=
    match self_environment with
    | Some e => ret e
    | None => throw AttributeError
    end in
  let! class_names :=
    (if existsb (String.eqb "class_names.txt") infer_bucket_files
     then let! lines := load_text_file_from_cache "class_names.txt"
                          (Some (endpoint self)) in
          ret (map JStr lines)
     else let! e := read_environment in
          lift (get_class_names_from_environment_file e)) in
  let! e := read_environment in
  let! colors := lift (get_color_mapping_from_environment e class_names) in
  let! present := lift (py_contains "PREPROCESSING" e) in
  if negb present then throw ModelArtefactError
  else
    let! text := lift (py_index e "PREPROCESSING") in
    let! preproc := lift (json_loads text) in
    let! resize_method := lift (select_resize_method preproc) in
    ret (Artefacts e class_names colors (length class_names) preproc resize_method).

(** [get_model_artifacts] *)
Definition get_model_artifacts (self : model) : M artefacts :=
  do! cache_model_artefacts self in
  load_model_artefacts_from_cache self.

(** *** Input geometry *)

(** The attributes the second half of
    [OnnxRoboflowInferenceModel.initialize_model] sets.  A dimension is an
    integer or, when symbolic, a string. *)
Record geometry : Type := Geometry {
  batch_size : json;
  img_size_h : json;
  img_size_w : json;
  input_name : string;
  batching_enabled : bool
}.

(** From [inputs = self.onnx_session.get_inputs()[0]] to the end of
    [initialize_model]. *)
Definition resolve_geometry (preproc : json) (name : string)
    (input_shape : list json) : result geometry :=
  let? batch_size := list_index input_shape 0 in
  let? img_size_h := list_index input_shape 2 in
  let? img_size_w := list_index input_shape 3 in
  let? size :=
    (if is_str img_size_h || is_str img_size_w
     then let? declared := py_contains "resize" preproc in
          if declared
          then let? resize := py_index preproc "resize" in
               let? height := py_getitem resize (JStr "height") in
               let? h := py_int int_of_str height in
               let? resize := py_index preproc "resize" in
               let? width := py_getitem resize (JStr "width") in
               let? w := py_int int_of_str width in
               ok (JInt h, JInt w)
          else ok (JInt 640, JInt 640)
     else ok (img_size_h, img_size_w)) in
  ok (Geometry batch_size (fst size) (snd size) name (is_str batch_size)).

(** [onnxruntime.InferenceSession(path, providers=...)] and its first input. *)
Definition create_session (path : string) : M (string * list json) :=
  fun w => (inference_session h (trace w) path,
            World (fs w) (trace w ++ [CreateSession path])).

(** The check of [REQUIRED_ONNX_PROVIDERS]. *)
Definition check_required_providers : result unit :=
  if forallb (fun provider =>
                existsb (String.eqb provider) (get_available_providers h))
             (REQUIRED_ONNX_PROVIDERS cfg)
  then ok tt else raise OnnxProviderNotAvailable.

(** [OnnxRoboflowInferenceModel.initialize_model] *)
Definition initialize_model (self : model) : M (artefacts * geometry) :=
  let! a := get_model_artifacts self in
  let! weights := lift (weights_file (class_of self)) in
  let! session := create_session (get_cache_file_path weights (Some (endpoint self))) in
  do! lift check_required_providers in
  let! g := lift (resolve_geometry (preproc a) (fst session) (snd session)) in
  ret (a, g).

End Process.

(** ** Image preprocessing *)

Inductive dtype : Type := uint8 | float32.

(** A numpy array: its element type, its shape and its elements in
    row-major order.  The pixel values here are integers, which [float32]
    holds exactly. *)
Record ndarray : Type := NDArray {
  dt : dtype;
  shape : list nat;
  data : list Z
}.


(** [np.transpose(a, (2, 0, 1))] *)
Definition transpose_2_0_1 (a : ndarray) : result ndarray :=
  match shape a with
  | [h; w; c] =>
      ok (NDArray (dt a) [c; h; w]
            (flat_map (fun k =>
               flat_map (fun i =>
                 map (fun j => nth ((i * w + j) * c + k) (data a) 0%Z) (seq 0 w))
                 (seq 0 h))
               (seq 0 c)))
  | _ => raise ValueError
  end.

(** [a.astype(np.float32)] *)
Definition astype_float32 (a : ndarray) : ndarray :=
  NDArray float32 (shape a) (data a).

(** [np.expand_dims(a, axis=0)] *)
Definition expand_dims_0 (a : ndarray) : ndarray :=
  NDArray (dt a) (1 :: shape a) (data a).

Definition shape_eqb (a b : list nat) : bool :=
  bool_decide (a = b).

Definition promote (a b : dtype) : dtype :=
  match a, b with
  | uint8, uint8 => uint8
  | _, _ => float32
  end.

(** [np.concatenate(arrays, axis=0)] *)
Definition concatenate_0 (arrays : list ndarray) : result ndarray :=
  match arrays with
  | [] => raise ValueError
  | a :: rest =>
      match shape a with
      | [] => raise ValueError
      | _ :: inner =>
          if forallb (fun b => match shape b with
                               | [] => false
                               | _ :: inner' => shape_eqb inner inner'
                               end) rest
          then ok (NDArray (foldr promote (dt a) (map dt rest))
                     (list_sum (map (fun b => hd 0 (shape b)) arrays) :: inner)
                     (concat (map data arrays)))
          else raise ValueError
      end
  end.



(** The per-call switches of the preprocessing steps. *)
Record flags : Type := Flags {
  disable_preproc_auto_orient : bool;
  disable_preproc_contrast : bool;
  disable_preproc_grayscale : bool;
  disable_preproc_static_crop : bool
}.

(** [ThreadPoolExecutor.map(f, xs)]: every task is submitted at once, the
    workers finish in some order, and the results are read future by future
    in the order of submission; reading a future that is not done waits for
    its task. *)
Definition completed_futures {A B} (f : A -> B) (xs : list A) (order : list nat)
    : list (option B) :=
  foldl (fun slots i => match xs !! i with
                        | Some x => <[i := Some (f x)]> slots
                        | None => slots
                        end)
        (replicate (length xs) None) order.

Definition threadpool_map {A B} (f : A -> B) (xs : list A) (order : list nat) : list B :=
  imap (fun i x => match completed_futures f xs order !! i with
                   | Some (Some y) => y
                   | _ => f x
                   end) xs.

Section Preprocessing.

(** What a request carries as an image, and the image operations of
    [inference.core.utils] and OpenCV.  [letterbox_image] computes its sizes in
    binary floating point and stands here with the OpenCV operations. *)
Variable image : Type.
Variable load_image_util : image -> bool -> result (ndarray * bool).
Variable prepare : ndarray -> json -> flags -> result (ndarray * (Z * Z)).
Variable cv2_resize : ndarray -> json * json -> result ndarray.
Variable letterbox_image : ndarray -> json * json -> Z * Z * Z -> result ndarray.
Variable cvtColor_BGR2RGB : ndarray -> result ndarray.

Variable cfg : config.
Variable a : artefacts.
Variable g : geometry.

(** The order in which the workers of [image_loader_threadpool] finish. *)
Variable order : list nat.

(** [preprocess_image] *)
Definition preprocess_image (np_image : ndarray) (fl : flags)
    : result (ndarray * (Z * Z)) :=
  prepare np_image (preproc a) fl.

(** [preproc_image] *)
Definition preproc_image (fl : flags) (img : image) : result (ndarray * (Z * Z)) :=
  let? no_auto_orient :=
    (if disable_preproc_auto_orient fl then ok true
     else match preproc a with
          | JObj d => ok (negb (dict_mem "auto-orient" d) || DISABLE_PREPROC_AUTO_ORIENT cfg)
          | _ => raise AttributeError
          end) in
  let? loaded := load_image_util img no_auto_orient in
  let '(np_image, is_bgr) := loaded in
  let? prepared := preprocess_image np_image fl in
  let '(preprocessed_image, img_dims) := prepared in
  let? resized :=
    (if String.eqb (resize_method a) "Stretch to"
     then cv2_resize preprocessed_image (img_size_w g, img_size_h g)
     else if String.eqb (resize_method a) "Fit (black edges) in"
     then letterbox_image preprocessed_image (img_size_w g, img_size_h g) (0, 0, 0)%Z
     else if String.eqb (resize_method a) "Fit (white edges) in"
     then letterbox_image preprocessed_image (img_size_w g, img_size_h g)
            (255, 255, 255)%Z
     else raise UnboundLocalError) in
  let? resized := (if is_bgr : bool then cvtColor_BGR2RGB resized else ok resized) in
  let? transposed := transpose_2_0_1 resized in
  let img_in := expand_dims_0 (astype_float32 transposed) in
  ok (img_in, img_dims).

(** The argument of [load_image]: one image, or a list of them. *)
Inductive image_input : Type :=
  | OneImage (img : image)
  | ImageList (images : list image).

(** [OnnxRoboflowInferenceModel.load_image] *)
Definition load_image (input : image_input) (fl : flags)
    : result (ndarray * list (Z * Z)) :=
  match input with
  | ImageList images =>
      let? imgs_with_dims :=
        comprehension id (threadpool_map (preproc_image fl) images order) in
      match imgs_with_dims with
      | [] => raise ValueError
      | _ :: _ =>
          let? img_in := concatenate_0 (map fst imgs_with_dims) in
          ok (img_in, map snd imgs_with_dims)
      end
  | OneImage img =>
      let? r := preproc_image fl img in
      ok (fst r, [snd r])
  end.

End Preprocessing.

Arguments OneImage {image} img.
Arguments ImageList {image} images.

(** ** The fetch step *)

(** The two entry points that make sure the artefacts are in the cache, and
    the files each one passes to [are_all_files_cached]. *)
Inductive fetch_step : Type :=
  | CacheModelArtefacts
  | DownloadWeights.

Definition run_fetch (cfg : config) (h : host) (step : fetch_step) (self : model)
    : M unit :=
  match step with
  | CacheModelArtefacts => cache_model_artefacts cfg h self
  | DownloadWeights => download_weights cfg h self
  end.

Definition files_checked (step : fetch_step) (self : model) : result (list string) :=
  match step with
  | CacheModelArtefacts => get_all_required_infer_bucket_file self
  | DownloadWeights => get_infer_bucket_file_list (class_of self)
  end.

(** The network operations a computation performs from [w]. *)
Definition network_calls {A} (c : M A) (w : world) : list event :=
  filter (fun e => is_network e = true) (events_of c w).

(** Concrete settings used in the examples below. *)
Definition example_config : config :=
  {| API_BASE_URL := "https://api.roboflow.com";
     API_KEY := Some "key";
     AWS_ACCESS_KEY_ID := None;
     AWS_SECRET_ACCESS_KEY := None;
     LAMBDA := false;
     INFER_BUCKET := "roboflow-infer";
     MODEL_CACHE_DIR := "/tmp/cache";
     GLOBAL_DEVICE_ID := "device";
     REQUIRED_ONNX_PROVIDERS := [];
     DISABLE_PREPROC_AUTO_ORIENT := false;
     boto3_client_constructed := false |}.

Definition example_lambda_config : config :=
  {| API_BASE_URL := "https://api.roboflow.com";
     API_KEY := None;
     AWS_ACCESS_KEY_ID := Some "AKIA";
     AWS_SECRET_ACCESS_KEY := Some "secret";
     LAMBDA := true;
     INFER_BUCKET := "roboflow-infer";
     MODEL_CACHE_DIR := "/tmp/cache";
     GLOBAL_DEVICE_ID := "device";
     REQUIRED_ONNX_PROVIDERS := [];
     DISABLE_PREPROC_AUTO_ORIENT := false;
     boto3_client_constructed := true |}.

(** A host that is unreachable: requests fail to connect and the bulk
    download ends with a client error. *)
Definition unreachable_host : host :=
  {| wrap_url := fun u => match u with JStr s => ok s | _ => raise TypeError end;
     requests_get := fun _ _ => raise ConnectionError;
     s3_transfer := fun _ _ _ _ => ([], Some (OtherException "ClientError"));
     download_was_slow := fun _ => false;
     inference_session := fun _ _ => raise (OtherException "NoSuchFile");
     get_available_providers := [] |}.

Definition example_onnx_model : model :=
  {| class_of := OnnxRoboflowInferenceModel_class;
     api_key := Some "key";
     dataset_id := "coins";
     version_id := "3";
     endpoint := "coins/3";
     device_id := "device";
     cache_dir := "/tmp/cache/coins/3" |}.

Definition example_doctr_det_model : model :=
  {| class_of := DocTRDet_class;
     api_key := Some "key";
     dataset_id := "doctr_det";
     version_id := "db_resnet50";
     endpoint := "doctr_det/db_resnet50";
     device_id := "device";
     cache_dir := "/tmp/cache/doctr_det/db_resnet50" |}.

Definition empty_world : world := World ∅ [].

Definition onnx_cached_world : world :=
  World (<["/tmp/cache/coins/3/environment.json" := Json (JObj [])]>
         (<["/tmp/cache/coins/3/class_names.txt" := Lines ["penny"]]>
          (<["/tmp/cache/coins/3/weights.onnx" := Bytes "onnx"]> ∅)))
        [].

(** The per-file path of each fetch step. *)
Definition api_path (cfg : config) (h : host) (step : fetch_step) (self : model)
    : M unit :=
  match step with
  | CacheModelArtefacts => download_model_artefacts_from_roboflow_api cfg h self
  | DownloadWeights => download_mode_from_roboflow_api cfg h self
  end.

(** [emits P c]: from any world, [c] only adds events to the trace, and
    each of them satisfies [P]. *)
Definition emits {A} (P : event -> Prop) (c : M A) : Prop :=
  forall w, exists evs, trace (snd (c w)) = trace w ++ evs /\ Forall P evs.

Definition not_api_request (e : event) : Prop := is_api_request e = false.
Definition not_s3_download (e : event) : Prop := is_s3_download e = false.

(** Whether [__init__] gets past the API key check. *)
Definition has_credentials (cfg : config) (key : option string) : bool :=
  truthy_str (if truthy_str key then key else API_KEY cfg) ||
  (truthy_str (AWS_SECRET_ACCESS_KEY cfg) &&
   (truthy_str (AWS_ACCESS_KEY_ID cfg) && LAMBDA cfg)).

(** A future that is done holds the value of its own task. *)
Definition futures_sound {A B} (f : A -> B) (xs : list A) (slots : list (option B))
    : Prop :=
  forall i y, slots !! i = Some (Some y) -> exists x, xs !! i = Some x /\ y = f x.


Definition example_prepare (x : ndarray) (_ : json) (_ : flags)
    : result (ndarray * (Z * Z)) :=
  ok (x, (1, 1)%Z).

Definition example_resize (x : ndarray) (_ : json * json) : result ndarray := ok x.

Definition example_letterbox (x : ndarray) (_ : json * json) (_ : Z * Z * Z)
    : result ndarray := ok x.

Definition example_cvtColor (x : ndarray) : result ndarray := ok x.

Definition example_artefacts : artefacts :=
  {| environment := JObj [("PREPROCESSING", JStr "{}")];
     class_names := [JStr "penny"];
     colors := PaletteColors [(JStr "penny", "#4892EA")];
     num_classes := 1;
     preproc := JObj [];
     resize_method := "Stretch to" |}.

Definition example_geometry : geometry :=
  {| batch_size := JStr "batch";
     img_size_h := JInt 1;
     img_size_w := JInt 1;
     input_name := "images";
     batching_enabled := true |}.

Definition example_flags : flags := Flags false false false false.

(** ** The other requests of [inference.core.roboflow_api] *)

Definition MODEL_TYPE_DEFAULTS : list (string * string) :=
  [("object-detection", "yolov5v2s");
   ("instance-segmentation", "yolact");
   ("classification", "vit")].

(** [MODEL_TYPE_DEFAULTS[k]] without the exception. *)
Fixpoint default_model_type (k : string) (table : list (string * string))
    : option string :=
  match table with
  | [] => None
  | (k', v) :: r => if String.eqb k k' then Some v else default_model_type k r
  end.

(** [sep.join(parts)] *)
Fixpoint str_join (sep : string) (parts : list string) : string :=
  match parts with
  | [] => ""
  | [p] => p
  | p :: r => (p ++ sep ++ str_join sep r)%string
  end.

(** The exception classes of [inference.core.exceptions] that only these
    requests raise. *)
Definition WorkspaceLoadError : exn := OtherException "WorkspaceLoadError".
Definition DatasetLoadError : exn := OtherException "DatasetLoadError".
Definition MissingDefaultModelError : exn := OtherException "MissingDefaultModelError".

Section RoboflowApi.

Variable cfg : config.
Variable h : host.

(** [get_roboflow_workspace] *)
Definition get_roboflow_workspace (key : string) : M json :=
  wrap_roboflow_api_errors RoboflowAPIConnectionError WorkspaceLoadError
    (let! api_url := lift (wrap_url h (JStr
        (str_join "/" [API_BASE_URL cfg; ("?api_key=" ++ key)%string]))) in
     let! api_key_info := requests_get_call h api_url in
     do! lift (raise_for_status api_key_info) in
     let! info := lift (response_json api_key_info) in
     let! workspace_id := lift (py_get info "workspace" JNull) in
     match workspace_id with
     | JNull => throw WorkspaceLoadError
     | _ => ret workspace_id
     end).

(** [get_roboflow_dataset_type] *)
Definition get_roboflow_dataset_type (key workspace_id dataset : string) : M json :=
  wrap_roboflow_api_errors RoboflowAPIConnectionError DatasetLoadError
    (let! api_url := lift (wrap_url h (JStr
        (str_join "/" [API_BASE_URL cfg; workspace_id; dataset;
                       ("?api_key=" ++ key ++ "&nocache=true")%string]))) in
     let! dataset_info := requests_get_call h api_url in
     do! lift (raise_for_status dataset_info) in
     let! info := lift (response_json dataset_info) in
     let! project_task_type := lift (py_get info "project" (JObj [])) in
     let! _typed := lift (py_contains "type" project_task_type) in
     lift (py_get project_task_type "type" (JStr "object-detection"))).

(** [get_roboflow_model_type].  The default handed to [.get] is looked up
    in [MODEL_TYPE_DEFAULTS] before [.get] runs. *)
Definition get_roboflow_model_type (key workspace_id dataset version : string)
    (project_task_type : string) : M json :=
  wrap_roboflow_api_errors RoboflowAPIConnectionError DatasetLoadError
    (let! api_url := lift (wrap_url h (JStr
        (str_join "/" [API_BASE_URL cfg; workspace_id; dataset; version;
                       ("?api_key=" ++ key ++ "&nocache=true")%string]))) in
     let! version_info := requests_get_call h api_url in
     do! lift (raise_for_status version_info) in
     let! info := lift (response_json version_info) in
     let! model_type := lift (py_index info "version") in
     let! given := lift (py_contains "modelType" model_type) in
     do! (if negb given
          then match default_model_type project_task_type MODEL_TYPE_DEFAULTS with
               | None => throw MissingDefaultModelError
               | Some _ => ret tt
               end
          else ret tt) in
     match model_type with
     | JObj d =>
         match default_model_type project_task_type MODEL_TYPE_DEFAULTS with
         | None => throw KeyError
         | Some default =>
             ret (match dict_get "modelType" d with
                  | Some m => m
                  | None => JStr default
                  end)
         end
     | _ => throw AttributeError
     end).

End RoboflowApi.

(** ** Letterbox sizes *)

(** The sizes and paddings [letterbox_image] computes before it calls
    OpenCV. *)
Record letterbox_plan : Type := LetterboxPlan {
  new_width : Z;
  new_height : Z;
  top_padding : Z;
  bottom_padding : Z;
  left_padding : Z;
  right_padding : Z
}.

Section Letterbox.

(** Python's [float] and the operations [letterbox_image] uses on it:
    [int / int], [>=], [int / float], [int * float] and [int(float)].  The
    divisions raise on a zero divisor and [int] raises on an infinity or a
    NaN. *)
Variable float : Type.
Variable int_truediv : Z -> Z -> result float.
Variable float_ge : float -> float -> bool.
Variable int_div_float : Z -> float -> result float.
Variable int_mul_float : Z -> float -> float.
Variable int_of_float : float -> result Z.

(** [letterbox_image] up to the call of [cv2.resize], and the paddings it
    hands to [cv2.copyMakeBorder]: [img_shape] is (height, width),
    [desired_size] is (width, height). *)
Definition letterbox_sizes (img_shape desired_size : Z * Z) : result letterbox_plan :=
  let? img_ratio := int_truediv (snd img_shape) (fst img_shape) in
  let? desired_ratio := int_truediv (fst desired_size) (snd desired_size) in
  let? new_size :=
    (if float_ge img_ratio desired_ratio
     then let? q := int_div_float (fst desired_size) img_ratio in
          let? new_height := int_of_float q in
          ok (fst desired_size, new_height)
     else let? new_width := int_of_float (int_mul_float (snd desired_size) img_ratio) in
          ok (new_width, snd desired_size)) in
  let new_width := fst new_size in
  let new_height := snd new_size in
  let top_padding := ((snd desired_size - new_height) / 2)%Z in
  let bottom_padding := (snd desired_size - new_height - top_padding)%Z in
  let left_padding := ((fst desired_size - new_width) / 2)%Z in
  let right_padding := (fst desired_size - new_width - left_padding)%Z in
  ok (LetterboxPlan new_width new_height top_padding bottom_padding
        left_padding right_padding).

End Letterbox.

(** Exact rational arithmetic as an instance of the float operations, used
    in the examples. *)
Definition exact_truediv (a b : Z) : result Q :=
  if Z.eqb b 0 then raise (OtherException "ZeroDivisionError")
  else ok (Qmake a 1 / Qmake b 1)%Q.

Definition exact_ge (x y : Q) : bool := Qle_bool y x.

Definition exact_div (a : Z) (x : Q) : result Q :=
  if Z.eqb (Qnum x) 0 then raise (OtherException "ZeroDivisionError")
  else ok (Qmake a 1 / x)%Q.

Definition exact_mul (a : Z) (x : Q) : Q := (Qmake a 1 * x)%Q.

Definition exact_int (x : Q) : result Z := ok (Z.quot (Qnum x) (Zpos (Qden x))).

(** The address [get_roboflow_model_data] asks. *)
Definition model_data_url (cfg : config) (key : option string) (model_id : string)
    (endpoint_type : ModelEndpointType) (device : string) : string :=
  (API_BASE_URL cfg ++ "/" ++ endpoint_value endpoint_type ++ "/" ++ model_id
   ++ "?api_key=" ++ str_of key ++ "&device=" ++ device
   ++ "&nocache=true&dynamic=true")%string.

(** [400 <= status_code < 600], the test of [raise_for_status]. *)
Definition is_error_status (r : response) : Prop :=
  (400 <= status_code r < 600)%Z.

(** Settings with no API key and no AWS credentials. *)
Definition example_bare_config : config :=
  {| API_BASE_URL := "https://api.roboflow.com";
     API_KEY := None;
     AWS_ACCESS_KEY_ID := None;
     AWS_SECRET_ACCESS_KEY := None;
     LAMBDA := false;
     INFER_BUCKET := "roboflow-infer";
     MODEL_CACHE_DIR := "/tmp/cache";
     GLOBAL_DEVICE_ID := "device";
     REQUIRED_ONNX_PROVIDERS := [];
     DISABLE_PREPROC_AUTO_ORIENT := false;
     boto3_client_constructed := false |}.

(** A host that answers every request with the same response. *)
Definition constant_host (r : response) : host :=
  {| wrap_url := fun u => match u with JStr s => ok s | _ => raise TypeError end;
     requests_get := fun _ _ => ok r;
     s3_transfer := fun _ _ _ _ => ([], None);
     download_was_slow := fun _ => false;
     inference_session := fun _ _ => raise (OtherException "NoSuchFile");
     get_available_providers := [] |}.

(** A host that serves one ONNX model: the description, the environment
    and the weights, the last two with an error status. *)
Definition example_api_host : host :=
  {| wrap_url := fun u => match u with JStr s => ok s | _ => raise TypeError end;
     requests_get := fun _ url =>
       if String.eqb url "https://files/environment" then
         ok (Response 404 "" (Some (JObj [("PREPROCESSING", JStr "{}")])))
       else if String.eqb url "https://files/weights" then
         ok (Response 503 "not the weights" None)
       else
         ok (Response 200 ""
               (Some (JObj [("ort",
                  JObj [("model", JStr "https://files/weights");
                        ("environment", JStr "https://files/environment");
                        ("colors", JObj [("penny", JStr "#FF0000")])])])));
     s3_transfer := fun _ _ _ _ => ([], None);
     download_was_slow := fun _ => false;
     inference_session := fun _ _ => raise (OtherException "NoSuchFile");
     get_available_providers := [] |}.

(** A cache that already holds the weights of the DocTR detection model. *)
Definition doctr_det_cached_world : world :=
  World (<["/tmp/cache/doctr_det/db_resnet50/model.pt" := Bytes "pt"]> ∅) [].

(** A parser that knows two texts, used in the examples. *)
Definition example_json_parse (s : string) : option json :=
  if String.eqb s "{}" then Some (JObj [])
  else if String.eqb s "letterbox" then
    Some (JObj [("resize", JObj [("format", JStr "Fit (black edges) in");
                                 ("height", JInt 480); ("width", JInt 640)])])
  else None.

(** A cache that holds a complete ONNX model. *)
Definition onnx_ready_world : world :=
  World (<["/tmp/cache/coins/3/environment.json" :=
             Json (JObj [("PREPROCESSING", JStr "letterbox")])]>
         (<["/tmp/cache/coins/3/class_names.txt" := Lines ["penny"; "dime"]]>
          (<["/tmp/cache/coins/3/weights.onnx" := Bytes "onnx"]> ∅)))
        [].

(** ** The text of [DocTR.infer] *)

(** [sep.join(values)]: every value has to be a string. *)
Definition py_str_join (sep : string) (values : list json) : result string :=
  let? strings := text_lines values in
  ok (str_join sep strings).

(** [" ".join([word["value"] for word in line["words"]])] *)
Definition line_text (line : json) : result string :=
  let? words := py_getitem line (JStr "words") in
  let? words := py_iter words in
  let? values := comprehension (fun word => py_getitem word (JStr "value")) words in
  py_str_join " " values.

(** The texts of the lines of one block, [for line in block["lines"]]. *)
Definition block_texts (block : json) : result (list string) :=
  let? lines := py_getitem block (JStr "lines") in
  let? lines := py_iter lines in
  comprehension line_text lines.

(** From [result = result["pages"][0]["blocks"]] to [" ".join(result)] in
    [DocTR.infer]: [exported] is what [self.model(doc).export()] returned. *)
Definition ocr_text (exported : json) : result string :=
  let? pages := py_getitem exported (JStr "pages") in
  let? page := py_getitem pages (JInt 0) in
  let? blocks := py_getitem page (JStr "blocks") in
  let? blocks := py_iter blocks in
  let? texts := comprehension block_texts blocks in
  ok (str_join " " (concat texts)).

(** An export of one page: blocks of lines of words. *)
Definition word_json (s : string) : json := JObj [("value", JStr s)].
Definition line_json (words : list string) : json :=
  JObj [("words", JList (map word_json words))].
Definition block_json (lines : list (list string)) : json :=
  JObj [("lines", JList (map line_json lines))].
Definition export_json (blocks : list (list (list string))) : json :=
  JObj [("pages", JList [JObj [("blocks", JList (map block_json blocks))]])].


(** A host that serves one ONNX model in full: the description with its
    class list, the environment and the weights, every answer with status
    200. *)
Definition example_full_api_host : host :=
  {| wrap_url := fun u => match u with JStr s => ok s | _ => raise TypeError end;
     requests_get := fun _ url =>
       if String.eqb url "https://files/environment" then
         ok (Response 200 "" (Some (JObj [("PREPROCESSING", JStr "{}")])))
       else if String.eqb url "https://files/weights" then
         ok (Response 200 "onnx" None)
       else
         ok (Response 200 ""
               (Some (JObj [("ort",
                  JObj [("classes", JList [JStr "penny"]);
                        ("model", JStr "https://files/weights");
                        ("environment", JStr "https://files/environment")])])));
     s3_transfer := fun _ _ _ _ => ([], None);
     download_was_slow := fun _ => false;
     inference_session := fun _ _ => raise (OtherException "NoSuchFile");
     get_available_providers := [] |}.

(** * Properties *)

(** *** Reading the trace *)

Lemma events_of_extension {A} (c : M A) (w : world) (evs : list event) :
  trace (snd (c w)) = trace w ++ evs -> events_of c w = evs.
Proof.
  intros H. unfold events_of. rewrite H. apply drop_app_length.
Qed.

Lemma all_files_present_subset cfg (files manifest : list string) model_id w :
  files ⊆ manifest ->
  all_files_present cfg manifest model_id w = true ->
  all_files_present cfg files model_id w = true.
Proof.
  unfold all_files_present. intros Hsub Hall.
  rewrite forallb_forall in Hall. apply forallb_forall.
  intros f Hf. apply Hall. apply list_elem_of_In. apply Hsub.
  by apply list_elem_of_In.
Qed.

Lemma run_fetch_cached cfg h step self w files :
  files_checked step self = ok files ->
  all_files_present cfg files (endpoint self) w = true ->
  run_fetch cfg h step self w =
    (ok tt, World (fs w) (trace w ++ [CacheCheck (endpoint self) files])).
Proof.
  intros Hfiles Hall.
  destruct step; simpl in *;
    unfold cache_model_artefacts, download_weights, bind, lift, are_all_files_cached;
    rewrite Hfiles; simpl; rewrite Hall; reflexivity.
Qed.

(** When every file of the manifest is in the cache, the fetch step
    ([cache_model_artefacts] as well as [download_weights]) returns at once: it
    leaves the cache as it is, its only action is the cache check, and it
    makes no network call (no S3 download, no API request). *)
Theorem fetch_with_complete_cache_makes_no_network_call
    (cfg : config) (h : host) (step : fetch_step) (self : model) (w : world)
    (files manifest : list string)
    (Hfiles : files_checked step self = ok files)
    (Hmanifest : files ⊆ manifest)
    (Hcached : all_files_present cfg manifest (endpoint self) w = true) :
  run_fetch cfg h step self w =
    (ok tt, World (fs w) (trace w ++ [CacheCheck (endpoint self) files])) /\
  events_of (run_fetch cfg h step self) w = [CacheCheck (endpoint self) files] /\
  network_calls (run_fetch cfg h step self) w = [].
Proof.
  assert (Hall : all_files_present cfg files (endpoint self) w = true)
    by eauto using all_files_present_subset.
  pose proof (run_fetch_cached cfg h step self w files Hfiles Hall) as Hrun.
  assert (Hev : events_of (run_fetch cfg h step self) w
                = [CacheCheck (endpoint self) files])
    by (apply events_of_extension; rewrite Hrun; reflexivity).
  repeat split.
  - exact Hrun.
  - exact Hev.
  - unfold network_calls. rewrite Hev. reflexivity.
Qed.

Lemma fetch_with_complete_cache_witness :
  run_fetch example_config unreachable_host CacheModelArtefacts
    example_onnx_model onnx_cached_world =
    (ok tt,
     World (fs onnx_cached_world)
       [CacheCheck "coins/3" ["environment.json"; "class_names.txt"; "weights.onnx"]]) /\
  events_of (run_fetch example_config unreachable_host CacheModelArtefacts
               example_onnx_model) onnx_cached_world
    = [CacheCheck "coins/3" ["environment.json"; "class_names.txt"; "weights.onnx"]] /\
  network_calls (run_fetch example_config unreachable_host CacheModelArtefacts
                   example_onnx_model) onnx_cached_world = [].
Proof.
  apply (fetch_with_complete_cache_makes_no_network_call
           example_config unreachable_host CacheModelArtefacts example_onnx_model
           onnx_cached_world
           ["environment.json"; "class_names.txt"; "weights.onnx"]
           ["environment.json"; "class_names.txt"; "weights.onnx"]).
  - reflexivity.
  - intros x Hx; exact Hx.
  - vm_compute; reflexivity.
Defined.

(** C1, the second call after a first fetch that succeeded.  With no bulk
    source and an empty cache, [cache_model_artefacts] on a service that
    answers every request returns normally after three API requests.  It
    stores the weights in the directory of the model, but the class names and
    the environment in the cache root, since [save_text_lines_in_cache] and
    [save_json_in_cache] are called without [model_id].  The manifest of the
    model is therefore still incomplete, and a second call makes the same three
    requests again. *)
Theorem second_fetch_after_an_api_fetch_asks_again :
  let fetch :=
    cache_model_artefacts example_config example_full_api_host example_onnx_model in
  let w1 := snd (fetch empty_world) in
  let requests :=
    [HttpGet "https://api.roboflow.com/ort/coins/3?api_key=key&device=device&nocache=true&dynamic=true";
     HttpGet "https://files/environment";
     HttpGet "https://files/weights"] in
  fst (fetch empty_world) = ok tt /\
  network_calls fetch empty_world = requests /\
  fs w1 !! "/tmp/cache/coins/3/weights.onnx" = Some (Bytes "onnx") /\
  fs w1 !! "/tmp/cache/class_names.txt" = Some (Lines ["penny"]) /\
  fs w1 !! "/tmp/cache/environment.json"
    = Some (Json (JObj [("PREPROCESSING", JStr "{}")])) /\
  fs w1 !! "/tmp/cache/coins/3/class_names.txt" = None /\
  fs w1 !! "/tmp/cache/coins/3/environment.json" = None /\
  all_files_present example_config
    ["environment.json"; "class_names.txt"; "weights.onnx"] "coins/3" w1 = false /\
  fst (fetch w1) = ok tt /\
  network_calls fetch w1 = requests.
Proof. vm_compute. repeat split; reflexivity. Qed.

(** *** What a computation adds to the trace *)

Section Emits.

Context {P : event -> Prop}.

Lemma emits_ret {A} (a : A) : emits P (ret a).
Proof. intros w. exists []. simpl. rewrite app_nil_r. auto. Qed.

Lemma emits_throw {A} (e : exn) : emits P (@throw A e).
Proof. intros w. exists []. simpl. rewrite app_nil_r. auto. Qed.

Lemma emits_lift {A} (r : result A) : emits P (lift r).
Proof. intros w. exists []. simpl. rewrite app_nil_r. auto. Qed.

Lemma emits_bind {A B} (c : M A) (k : A -> M B) :
  emits P c -> (forall a, emits P (k a)) -> emits P (bind c k).
Proof.
  intros Hc Hk w. unfold bind.
  destruct (Hc w) as (evs1 & H1 & F1).
  destruct (c w) as [[e | a] w1]; simpl in *.
  - exists evs1. auto.
  - destruct (Hk a w1) as (evs2 & H2 & F2).
    exists (evs1 ++ evs2). split.
    + rewrite H2, H1. by rewrite app_assoc.
    + by apply Forall_app.
Qed.

Lemma emits_emit (e : event) : P e -> emits P (emit e).
Proof. intros He w. exists [e]. simpl. auto. Qed.

Lemma emits_write_file path c : emits P (write_file path c).
Proof. intros w. exists []. simpl. rewrite app_nil_r. auto. Qed.

Lemma emits_try_except {A} (c : M A) (handler : exn -> M A) :
  emits P c -> (forall e, emits P (handler e)) ->
  emits P (try_except_Exception c handler).
Proof.
  intros Hc Hh w. unfold try_except_Exception.
  destruct (Hc w) as (evs1 & H1 & F1).
  destruct (c w) as [[e | a] w1]; simpl in *.
  - destruct (is_Exception e).
    + destruct (Hh e w1) as (evs2 & H2 & F2).
      exists (evs1 ++ evs2). split.
      * rewrite H2, H1. by rewrite app_assoc.
      * by apply Forall_app.
    + exists evs1. auto.
  - exists evs1. auto.
Qed.

Lemma emits_wrap_roboflow_api_errors {A} (e1 e2 : exn) (c : M A) :
  emits P c -> emits P (wrap_roboflow_api_errors e1 e2 c).
Proof.
  intros Hc w. unfold wrap_roboflow_api_errors.
  destruct (Hc w) as (evs1 & H1 & F1).
  destruct (c w) as [[e | a] w1]; simpl in *.
  - exists evs1. destruct e; simpl; auto.
  - exists evs1. auto.
Qed.

End Emits.

Ltac emits_step :=
  match goal with
  | |- emits _ (bind _ _) => apply emits_bind; [ | intros ]
  | |- emits _ (ret _) => apply emits_ret
  | |- emits _ (throw _) => apply emits_throw
  | |- emits _ (lift _) => apply emits_lift
  | |- emits _ (write_file _ _) => apply emits_write_file
  | |- emits _ (wrap_roboflow_api_errors _ _ _) =>
      apply emits_wrap_roboflow_api_errors
  | |- emits _ (try_except_Exception _ _) => apply emits_try_except; [ | intros ]
  | |- emits _ (if ?b then _ else _) => destruct b
  | |- emits _ (match ?x with _ => _ end) => destruct x
  end.

Section EmitsOfTheCode.

Variable cfg : config.
Variable h : host.

Lemma emits_requests_get_call (P : event -> Prop) url :
  P (HttpGet url) -> emits P (requests_get_call h url).
Proof. intros HP w. exists [HttpGet url]. simpl. auto. Qed.

Lemma emits_download_s3 (P : event -> Prop) bucket keys dir client :
  P (S3Download bucket keys dir) ->
  emits P (download_s3_files_to_directory h bucket keys dir client).
Proof.
  intros HP w. exists [S3Download bucket keys dir].
  unfold download_s3_files_to_directory.
  destruct (s3_transfer h (trace w) bucket keys dir) as [written err].
  simpl. auto.
Qed.

Lemma emits_are_all_files_cached (P : event -> Prop) files model_id :
  P (CacheCheck model_id files) -> emits P (are_all_files_cached cfg files model_id).
Proof. intros HP w. exists [CacheCheck model_id files]. simpl. auto. Qed.

Lemma emits_save_text_lines (P : event -> Prop) c file model_id :
  emits P (save_text_lines_in_cache cfg c file model_id).
Proof. unfold save_text_lines_in_cache. repeat emits_step. Qed.

Lemma no_s3_in_get_roboflow_model_data k m t d :
  emits not_s3_download (get_roboflow_model_data cfg h k m t d).
Proof.
  unfold get_roboflow_model_data. repeat emits_step.
  by apply emits_requests_get_call.
Qed.

Lemma no_s3_in_get_from_roboflow_api url :
  emits not_s3_download (get_from_roboflow_api h url).
Proof.
  unfold get_from_roboflow_api. repeat emits_step.
  by apply emits_requests_get_call.
Qed.

Lemma no_s3_in_get_from_roboflow_api_json url :
  emits not_s3_download (get_from_roboflow_api_json h url).
Proof.
  unfold get_from_roboflow_api_json. repeat emits_step.
  by apply emits_requests_get_call.
Qed.

Lemma no_s3_in_download_model_artefacts_from_roboflow_api self :
  emits not_s3_download (download_model_artefacts_from_roboflow_api cfg h self).
Proof.
  unfold download_model_artefacts_from_roboflow_api, save_bytes_in_cache,
    save_json_in_cache.
  repeat first
    [ apply no_s3_in_get_roboflow_model_data
    | apply no_s3_in_get_from_roboflow_api
    | apply no_s3_in_get_from_roboflow_api_json
    | apply emits_save_text_lines
    | emits_step ].
Qed.

Lemma no_s3_in_download_each_weight self keys :
  forall api_data,
    emits not_s3_download (download_each_weight cfg h self keys api_data).
Proof.
  induction keys as [| key rest IH]; intros api_data; simpl.
  - apply emits_ret.
  - unfold save_bytes_in_cache.
    repeat first
      [ apply IH
      | apply no_s3_in_get_roboflow_model_data
      | apply no_s3_in_get_from_roboflow_api
      | emits_step ].
    intros w. exists []. simpl. rewrite app_nil_r. auto.
Qed.

Lemma no_s3_in_download_mode_from_roboflow_api self :
  emits not_s3_download (download_mode_from_roboflow_api cfg h self).
Proof.
  unfold download_mode_from_roboflow_api.
  repeat first
    [ apply no_s3_in_download_each_weight
    | apply no_s3_in_get_roboflow_model_data
    | emits_step ].
Qed.

Lemma no_api_request_in_download_model_artefacts_from_s3 self :
  emits not_api_request (download_model_artefacts_from_s3 cfg h self).
Proof.
  unfold download_model_artefacts_from_s3.
  repeat first [ by apply emits_download_s3 | emits_step ].
Qed.

End EmitsOfTheCode.

Lemma filter_nil_of_Forall (q : event -> bool) (evs : list event) :
  Forall (fun e => q e = false) evs ->
  filter (fun e => q e = true) evs = [].
Proof.
  induction 1 as [| e evs He _ IH]; [reflexivity |].
  rewrite filter_cons. destruct (decide (q e = true)); [congruence | exact IH].
Qed.


Lemma run_fetch_incomplete cfg h step self w files :
  files_checked step self = ok files ->
  all_files_present cfg files (endpoint self) w = false ->
  run_fetch cfg h step self w =
    (if is_model_artefacts_bucket_available cfg
     then download_model_artefacts_from_s3 cfg h self
     else api_path cfg h step self)
      (World (fs w) (trace w ++ [CacheCheck (endpoint self) files])).
Proof.
  intros Hfiles Hmiss.
  destruct step; simpl in *;
    unfold cache_model_artefacts, download_weights, bind, lift, are_all_files_cached;
    rewrite Hfiles; simpl; rewrite Hmiss;
    destruct (is_model_artefacts_bucket_available cfg); reflexivity.
Qed.

Lemma s3_download_trace cfg h self w manifest :
  get_all_required_infer_bucket_file self = ok manifest ->
  trace (snd (download_model_artefacts_from_s3 cfg h self w)) =
    trace w ++ [S3Download (INFER_BUCKET cfg)
                  (map (fun file => (endpoint self ++ "/" ++ file)%string) manifest)
                  (get_cache_dir cfg (Some (endpoint self)))].
Proof.
  intros Hm.
  unfold download_model_artefacts_from_s3, try_except_Exception, bind, lift,
    download_s3_files_to_directory.
  rewrite Hm. simpl.
  destruct (s3_transfer h _ _ _ _) as [written [e |]]; simpl; [| reflexivity].
  destruct (is_Exception e); reflexivity.
Qed.

Lemma bulk_path_taken cfg h step self w files :
  files_checked step self = ok files ->
  all_files_present cfg files (endpoint self) w = false ->
  is_model_artefacts_bucket_available cfg = true ->
  run_fetch cfg h step self w =
    download_model_artefacts_from_s3 cfg h self
      (World (fs w) (trace w ++ [CacheCheck (endpoint self) files])) /\
  filter (fun e => is_api_request e = true)
    (events_of (run_fetch cfg h step self) w) = [].
Proof.
  intros Hfiles Hmiss Havail.
  pose proof (run_fetch_incomplete cfg h step self w files Hfiles Hmiss) as Hrun.
  rewrite Havail in Hrun. split; [exact Hrun |].
  set (checked := World (fs w) (trace w ++ [CacheCheck (endpoint self) files])) in *.
  destruct (no_api_request_in_download_model_artefacts_from_s3 cfg h self checked)
    as (evs & Htrace & Hall).
  rewrite (events_of_extension _ w (CacheCheck (endpoint self) files :: evs)).
  - apply filter_nil_of_Forall. constructor; [reflexivity | exact Hall].
  - rewrite Hrun, Htrace. unfold checked. simpl. by rewrite <- app_assoc.
Qed.

Lemma bulk_download_events cfg h step self w files manifest :
  files_checked step self = ok files ->
  all_files_present cfg files (endpoint self) w = false ->
  is_model_artefacts_bucket_available cfg = true ->
  get_all_required_infer_bucket_file self = ok manifest ->
  events_of (run_fetch cfg h step self) w =
    [CacheCheck (endpoint self) files;
     S3Download (INFER_BUCKET cfg)
       (map (fun file => (endpoint self ++ "/" ++ file)%string) manifest)
       (get_cache_dir cfg (Some (endpoint self)))].
Proof.
  intros Hfiles Hmiss Havail Hm.
  pose proof (run_fetch_incomplete cfg h step self w files Hfiles Hmiss) as Hrun.
  rewrite Havail in Hrun.
  apply events_of_extension.
  rewrite Hrun, (s3_download_trace cfg h self _ manifest Hm).
  simpl. by rewrite <- app_assoc.
Qed.






(** C3, as stated, fails: a failing bulk download does not surface as
    [ArtifactDownloadError]. *)
Lemma s3_failure_is_not_ArtifactDownloadError :
  ~ (forall (cfg : config) (h : host) (self : model) (w : world)
            (files : list string) (written : list (string * content)) (e : exn),
        get_all_required_infer_bucket_file self = ok files ->
        all_files_present cfg files (endpoint self) w = false ->
        is_model_artefacts_bucket_available cfg = true ->
        s3_transfer h (trace w ++ [CacheCheck (endpoint self) files]) (INFER_BUCKET cfg)
          (map (fun file => (endpoint self ++ "/" ++ file)%string) files)
          (get_cache_dir cfg (Some (endpoint self))) = (written, Some e) ->
        is_Exception e = true ->
        fst (cache_model_artefacts cfg h self w) = raise ArtifactDownloadError).
Proof.
  intros H.
  specialize (H example_lambda_config unreachable_host example_onnx_model empty_world
                ["environment.json"; "class_names.txt"; "weights.onnx"] []
                (OtherException "ClientError") eq_refl eq_refl eq_refl eq_refl eq_refl).
  vm_compute in H. discriminate H.
Qed.

(** C3, amended.  With an incomplete cache and the bulk source available,
    an exception (deriving from [Exception]) that ends the S3 bulk download
    reaches the caller as [ModelArtefactError], and no API request is made. *)
Theorem s3_failure_surfaces_as_ModelArtefactError
    (cfg : config) (h : host) (step : fetch_step) (self : model) (w : world)
    (files manifest : list string) (written : list (string * content)) (e : exn)
    (Hfiles : files_checked step self = ok files)
    (Hmiss : all_files_present cfg files (endpoint self) w = false)
    (Havail : is_model_artefacts_bucket_available cfg = true)
    (Hmanifest : get_all_required_infer_bucket_file self = ok manifest)
    (Hfail : s3_transfer h (trace w ++ [CacheCheck (endpoint self) files])
               (INFER_BUCKET cfg)
               (map (fun file => (endpoint self ++ "/" ++ file)%string) manifest)
               (get_cache_dir cfg (Some (endpoint self))) = (written, Some e))
    (Hexc : is_Exception e = true) :
  fst (run_fetch cfg h step self w) = raise ModelArtefactError /\
  filter (fun ev => is_api_request ev = true)
    (events_of (run_fetch cfg h step self) w) = [].
Proof.
  destruct (bulk_path_taken cfg h step self w files Hfiles Hmiss Havail)
    as (Hrun & Hnone).
  split; [| exact Hnone].
  rewrite Hrun.
  unfold download_model_artefacts_from_s3, try_except_Exception, bind, lift,
    download_s3_files_to_directory.
  rewrite Hmanifest. unfold ok. cbv beta iota zeta. cbn [trace fs].
  rewrite Hfail. unfold raise. cbv beta iota. rewrite Hexc. reflexivity.
Qed.

Lemma s3_failure_witness :
  fst (run_fetch example_lambda_config unreachable_host CacheModelArtefacts
         example_onnx_model empty_world) = raise ModelArtefactError /\
  filter (fun ev => is_api_request ev = true)
    (events_of (run_fetch example_lambda_config unreachable_host CacheModelArtefacts
                  example_onnx_model) empty_world) = [].
Proof.
  apply (s3_failure_surfaces_as_ModelArtefactError
           example_lambda_config unreachable_host CacheModelArtefacts
           example_onnx_model empty_world
           ["environment.json"; "class_names.txt"; "weights.onnx"]
           ["environment.json"; "class_names.txt"; "weights.onnx"]
           [] (OtherException "ClientError"));
    reflexivity.
Defined.

(** *** The manifest *)

Lemma emits_weaken {A} (P Q : event -> Prop) (c : M A) :
  (forall e, P e -> Q e) -> emits P c -> emits Q c.
Proof.
  intros HPQ Hc w. destruct (Hc w) as (evs & Htrace & Hall).
  exists evs. split; [exact Htrace |].
  eapply Forall_impl; eauto.
Qed.

Lemma fetch_starts_with_cache_check cfg h step self w files :
  files_checked step self = ok files ->
  exists rest,
    events_of (run_fetch cfg h step self) w = CacheCheck (endpoint self) files :: rest.
Proof.
  intros Hfiles.
  destruct (all_files_present cfg files (endpoint self) w) eqn:Hall.
  - exists []. apply events_of_extension.
    rewrite (run_fetch_cached cfg h step self w files Hfiles Hall). reflexivity.
  - pose proof (run_fetch_incomplete cfg h step self w files Hfiles Hall) as Hrun.
    set (checked := World (fs w) (trace w ++ [CacheCheck (endpoint self) files])) in *.
    assert (Hemits : emits (fun _ => True)
              (if is_model_artefacts_bucket_available cfg
               then download_model_artefacts_from_s3 cfg h self
               else api_path cfg h step self)).
    { destruct (is_model_artefacts_bucket_available cfg).
      - eapply emits_weaken;
          [| apply no_api_request_in_download_model_artefacts_from_s3]; auto.
      - destruct step; simpl.
        + eapply emits_weaken;
            [| apply no_s3_in_download_model_artefacts_from_roboflow_api]; auto.
        + eapply emits_weaken;
            [| apply no_s3_in_download_mode_from_roboflow_api]; auto. }
    destruct (Hemits checked) as (evs & Htrace & _).
    exists evs. apply events_of_extension.
    rewrite Hrun, Htrace. unfold checked. simpl. by rewrite <- app_assoc.
Qed.

(** For a class without a weights filename the bulk path stops before any
    download: composing the manifest raises, and the handler turns that into
    [ModelArtefactError]. *)
Lemma bulk_download_of_core_model_never_starts cfg h self w files :
  get_infer_bucket_file_list (class_of self) = ok files ->
  weights_file (class_of self) = raise NotImplementedError ->
  download_model_artefacts_from_s3 cfg h self w = (raise ModelArtefactError, w).
Proof.
  intros Hfiles Hw.
  unfold download_model_artefacts_from_s3, try_except_Exception, bind, lift,
    get_all_required_infer_bucket_file.
  rewrite Hfiles, Hw. reflexivity.
Qed.

(** C8, as stated, fails: for a core model ([DocTRDet]) the files the
    fetch step checks are the file list of the class alone, and the class has
    no weights filename to compose it with. *)
Lemma core_model_check_is_not_the_composed_manifest :
  ~ (forall (cfg : config) (h : host) (step : fetch_step) (self : model) (w : world)
            (files checked : list string) (rest : list event),
        get_infer_bucket_file_list (class_of self) = ok files ->
        events_of (run_fetch cfg h step self) w
          = CacheCheck (endpoint self) checked :: rest ->
        exists weights,
          weights_file (class_of self) = ok weights /\
          checked = files ++ [weights]).
Proof.
  intros H.
  destruct (H example_config unreachable_host DownloadWeights example_doctr_det_model
              empty_world ["model.pt"] ["model.pt"]
              [HttpGet "https://api.roboflow.com/core_model/doctr_det/db_resnet50?api_key=key&device=device&nocache=true&dynamic=true"]
              eq_refl eq_refl) as (weights & Hw & _).
  discriminate Hw.
Qed.

(** C8, amended.  [cache_model_artefacts] checks exactly the file list of
    the class followed by its weights filename; with these files missing and
    the bulk source available, its S3 download asks for exactly these files
    under the model id; with these files present nothing else is looked at.
    [download_weights] checks exactly the file list of the class. *)
Theorem manifest_is_what_the_fetch_step_checks
    (cfg : config) (h : host) (self : model) (w : world) (files : list string)
    (Hfiles : get_infer_bucket_file_list (class_of self) = ok files) :
  (forall weights,
     weights_file (class_of self) = ok weights ->
     let manifest := files ++ [weights] in
     get_all_required_infer_bucket_file self = ok manifest /\
     (exists rest,
        events_of (cache_model_artefacts cfg h self) w
          = CacheCheck (endpoint self) manifest :: rest) /\
     (all_files_present cfg manifest (endpoint self) w = true ->
        cache_model_artefacts cfg h self w =
          (ok tt, World (fs w) (trace w ++ [CacheCheck (endpoint self) manifest]))) /\
     (all_files_present cfg manifest (endpoint self) w = false ->
        is_model_artefacts_bucket_available cfg = true ->
        events_of (cache_model_artefacts cfg h self) w =
          [CacheCheck (endpoint self) manifest;
           S3Download (INFER_BUCKET cfg)
             (map (fun file => (endpoint self ++ "/" ++ file)%string) manifest)
             (get_cache_dir cfg (Some (endpoint self)))])) /\
  (exists rest,
     events_of (download_weights cfg h self) w
       = CacheCheck (endpoint self) files :: rest) /\
  (all_files_present cfg files (endpoint self) w = true ->
     download_weights cfg h self w =
       (ok tt, World (fs w) (trace w ++ [CacheCheck (endpoint self) files]))).
Proof.
  split; [| split].
  - intros weights Hweights manifest.
    assert (Hm : get_all_required_infer_bucket_file self = ok manifest).
    { unfold get_all_required_infer_bucket_file. rewrite Hfiles, Hweights.
      reflexivity. }
    split; [exact Hm |]. split; [| split].
    + apply (fetch_starts_with_cache_check cfg h CacheModelArtefacts self w manifest Hm).
    + intros Hall.
      apply (run_fetch_cached cfg h CacheModelArtefacts self w manifest Hm Hall).
    + intros Hmiss Havail.
      apply (bulk_download_events cfg h CacheModelArtefacts self w manifest manifest
               Hm Hmiss Havail Hm).
  - apply (fetch_starts_with_cache_check cfg h DownloadWeights self w files Hfiles).
  - intros Hall.
    apply (run_fetch_cached cfg h DownloadWeights self w files Hfiles Hall).
Qed.

Lemma manifest_witness :
  exists rest,
    events_of (download_weights example_config unreachable_host
                 example_doctr_det_model) empty_world
      = CacheCheck "doctr_det/db_resnet50" ["model.pt"] :: rest.
Proof.
  destruct (manifest_is_what_the_fetch_step_checks example_config unreachable_host
              example_doctr_det_model empty_world ["model.pt"] eq_refl)
    as (_ & Hcheck & _).
  exact Hcheck.
Defined.

(** ** Model identity *)

Lemma str_split_not_nil sep s : str_split sep s <> [].
Proof.
  destruct s as [| c r]; simpl; [discriminate |].
  destruct (Ascii.eqb c sep); [discriminate |].
  destruct (str_split sep r); discriminate.
Qed.

Lemma str_split_length sep s : length (str_split sep s) = S (str_count sep s).
Proof.
  induction s as [| c r IH]; simpl; [reflexivity |].
  destruct (Ascii.eqb c sep); simpl.
  - by rewrite IH.
  - destruct (str_split sep r) eqn:Hsplit; simpl in *; [discriminate IH | exact IH].
Qed.

Lemma str_split_one sep s v : str_split sep s = [v] -> s = v.
Proof.
  revert v. induction s as [| c r IH]; intros v; simpl.
  - intros Hv. by injection Hv.
  - destruct (Ascii.eqb c sep).
    + intros Hv. injection Hv as _ Hnil. by apply str_split_not_nil in Hnil.
    + destruct (str_split sep r) as [| x l] eqn:Hr.
      * by apply str_split_not_nil in Hr.
      * intros Hv. injection Hv as <- ->. f_equal. by apply IH.
Qed.

Lemma str_split_two sep s d v :
  str_split sep s = [d; v] -> s = (d ++ String sep v)%string.
Proof.
  revert d. induction s as [| c r IH]; intros d; simpl; [discriminate |].
  destruct (Ascii.eqb c sep) eqn:Hc.
  - apply Ascii.eqb_eq in Hc. subst c.
    intros Hsplit. injection Hsplit as <- Hr.
    apply str_split_one in Hr. subst r. reflexivity.
  - destruct (str_split sep r) as [| x l] eqn:Hr; [discriminate |].
    intros Hsplit. injection Hsplit as <- ->.
    rewrite (IH x eq_refl). reflexivity.
Qed.

(** C9, as stated, fails: [coins/] has an empty version segment and the
    constructor accepts it. *)
Lemma empty_version_segment_is_accepted :
  ~ (forall (cfg : config) (c : variant) (model_id root : string)
            (key : option string) (w : world),
        ~ (exists d v, d <> "" /\ v <> "" /\ str_split slash model_id = [d; v]) ->
        exists e, fst (RoboflowInferenceModel_init cfg c model_id root key w) = raise e).
Proof.
  intros H.
  destruct (H example_config OnnxRoboflowInferenceModel_class "coins/" "/tmp/cache"
              None empty_world) as (e & He).
  - intros (d & v & _ & Hv & Hsplit). vm_compute in Hsplit.
    injection Hsplit as _ <-. by apply Hv.
  - vm_compute in He. discriminate He.
Qed.

(** C9, amended.  Past the API key check, construction succeeds exactly
    when [model_id] has one ['/']: it then splits into two segments, either
    of which may be empty, which become [dataset_id] and [version_id]; with no
    separator or more than one, construction raises [ValueError]. *)
Theorem model_id_needs_exactly_one_separator
    (cfg : config) (c : variant) (model_id root : string) (key : option string)
    (w : world)
    (Hkey : has_credentials cfg key = true) :
  (str_count slash model_id = 1 ->
     exists d v,
       model_id = (d ++ "/" ++ v)%string /\
       exists self,
         RoboflowInferenceModel_init cfg c model_id root key w =
           (ok self, World (fs w) (trace w ++ [CacheInit (get_cache_dir cfg (Some model_id))])) /\
         dataset_id self = d /\ version_id self = v /\ endpoint self = model_id) /\
  (str_count slash model_id <> 1 ->
     RoboflowInferenceModel_init cfg c model_id root key w = (raise ValueError, w)).
Proof.
  assert (Hgate :
    negb (truthy_str (if truthy_str key then key else API_KEY cfg)) &&
    negb (truthy_str (AWS_SECRET_ACCESS_KEY cfg) &&
          (truthy_str (AWS_ACCESS_KEY_ID cfg) && LAMBDA cfg)) = false).
  { unfold has_credentials in Hkey.
    destruct (truthy_str (if truthy_str key then key else API_KEY cfg)); simpl in *;
      [reflexivity |].
    rewrite Hkey. reflexivity. }
  pose proof (str_split_length slash model_id) as Hlen.
  unfold RoboflowInferenceModel_init. rewrite Hgate.
  split.
  - intros Hcount. rewrite Hcount in Hlen.
    destruct (str_split slash model_id) as [| d [| v [| x l]]] eqn:Hsplit;
      try discriminate Hlen.
    exists d, v. split; [exact (str_split_two slash model_id d v Hsplit) |].
    eexists. split; [reflexivity |]. simpl. auto.
  - intros Hcount.
    destruct (str_split slash model_id) as [| d [| v [| x l]]] eqn:Hsplit;
      try reflexivity.
    simpl in Hlen. exfalso. apply Hcount. congruence.
Qed.

Lemma model_id_witness :
  exists d v,
    "coins/3" = (d ++ "/" ++ v)%string /\
    exists self,
      RoboflowInferenceModel_init example_config OnnxRoboflowInferenceModel_class
        "coins/3" "/tmp/cache" None empty_world =
        (ok self, World ∅ [CacheInit "/tmp/cache/coins/3"]) /\
      dataset_id self = d /\ version_id self = v /\ endpoint self = "coins/3".
Proof.
  destruct (model_id_needs_exactly_one_separator example_config
              OnnxRoboflowInferenceModel_class "coins/3" "/tmp/cache" None empty_world
              eq_refl) as (Hone & _).
  exact (Hone eq_refl).
Defined.

(** ** DocTR *)

(** C10. Every call of [DocTR.__init__] raises: the first statement reads
    the local [model_id] before anything is assigned to it, whatever the
    arguments are.  Nothing has happened by then. *)
Theorem DocTR_init_always_raises
    (cfg : config) (h : host) (args : list json) (kwargs : pydict) (w : world) :
  DocTR_init cfg h args kwargs w = (raise UnboundLocalError, w).
Proof. reflexivity. Qed.

(** ** Class names *)

Lemma dict_get_of_key (k : string) (d : pydict) :
  k ∈ dict_keys d -> exists v, dict_get k d = Some v.
Proof.
  induction d as [| [k' v'] r IH]; simpl.
  - intros Hk. by apply elem_of_nil in Hk.
  - intros Hk. destruct (String.eqb k k') eqn:Heq; [eauto |].
    apply elem_of_cons in Hk as [-> | Hk]; [| by apply IH].
    by rewrite String.eqb_refl in Heq.
Qed.

Lemma comprehension_over_keys (d : pydict) (keys : list string) :
  (forall k, k ∈ keys -> k ∈ dict_keys d) ->
  exists names,
    comprehension (fun key => dict_index key d) keys = ok names /\
    Forall2 (fun k v => dict_get k d = Some v) keys names.
Proof.
  induction keys as [| k r IH]; intros Hin; simpl.
  - exists []. split; [reflexivity | constructor].
  - destruct (dict_get_of_key k d) as (v & Hv); [apply Hin; by left |].
    destruct IH as (names & Hnames & Hall); [intros k' Hk'; apply Hin; by right |].
    exists (v :: names). unfold dict_index at 1. rewrite Hv. simpl.
    rewrite Hnames. simpl. split; [reflexivity | by constructor].
Qed.

Lemma get_class_names_of_class_map (env class_map : pydict) :
  dict_get "CLASS_MAP" env = Some (JObj class_map) ->
  get_class_names_from_environment_file (JObj env) =
    comprehension (fun key => dict_index key class_map)
      (sorted_keys (dict_keys class_map)).
Proof.
  intros Hmap.
  unfold get_class_names_from_environment_file,
    class_mapping_not_available_in_environment, py_contains, py_index,
    dict_mem, dict_index.
  rewrite Hmap. reflexivity.
Qed.



(** ** Input geometry *)

(** C5. When the engine reports a symbolic height or width, the height and
    width are those the preprocessing spec declares under [resize] if it has
    that key, and 640 by 640 if it has not; reported integers are kept as they
    are.  A symbolic batch dimension turns dynamic batching on; an integer
    batch dimension [n] turns it off and is the batch size. *)
Theorem geometry_resolution
    (int_of_str : string -> option Z) (p : pydict) (name : string)
    (b c hd wd : json) :
  let input_shape := [b; c; hd; wd] in
  (is_str hd || is_str wd = true ->
     (forall r height width h w,
        dict_get "resize" p = Some (JObj r) ->
        dict_get "height" r = Some height ->
        dict_get "width" r = Some width ->
        py_int int_of_str height = ok h ->
        py_int int_of_str width = ok w ->
        resolve_geometry int_of_str (JObj p) name input_shape
          = ok (Geometry b (JInt h) (JInt w) name (is_str b))) /\
     (dict_get "resize" p = None ->
        resolve_geometry int_of_str (JObj p) name input_shape
          = ok (Geometry b (JInt 640) (JInt 640) name (is_str b)))) /\
  (is_str hd || is_str wd = false ->
     resolve_geometry int_of_str (JObj p) name input_shape
       = ok (Geometry b hd wd name (is_str b))) /\
  (forall g,
     resolve_geometry int_of_str (JObj p) name input_shape = ok g ->
     batch_size g = b /\
     (forall s, b = JStr s -> batching_enabled g = true) /\
     (forall n, b = JInt n -> batching_enabled g = false /\ batch_size g = JInt n)).
Proof.
  intros input_shape. unfold resolve_geometry, input_shape. simpl.
  split; [| split].
  - intros Hsym. rewrite Hsym. split.
    + intros r height width h w Hr Hh Hw Hhi Hwi.
      unfold dict_mem, dict_index. rewrite Hr. simpl.
      unfold dict_index. rewrite Hh. simpl. rewrite Hhi. simpl.
      rewrite Hw. simpl. rewrite Hwi. reflexivity.
    + intros Hnone. unfold dict_mem. rewrite Hnone. reflexivity.
  - intros Hint. rewrite Hint. reflexivity.
  - intros g Hg.
    assert (Hb : batch_size g = b /\ batching_enabled g = is_str b).
    { destruct (is_str hd || is_str wd).
      - destruct (dict_mem "resize" p); simpl in Hg.
        + repeat match type of Hg with
                 | context [rbind ?x _] => destruct x; simpl in Hg;
                                           try discriminate Hg
                 end.
          injection Hg as <-. auto.
        + injection Hg as <-. auto.
      - injection Hg as <-. auto. }
    destruct Hb as [Hsize Hflag]. split; [exact Hsize |].
    split.
    + intros s ->. by rewrite Hflag.
    + intros n ->. by rewrite Hflag.
Qed.

Lemma geometry_witness :
  resolve_geometry (fun _ => None)
    (JObj [("resize", JObj [("format", JStr "Stretch to"); ("height", JInt 480);
                            ("width", JInt 640)])])
    "images" [JStr "batch"; JInt 3; JStr "height"; JStr "width"]
    = ok (Geometry (JStr "batch") (JInt 480) (JInt 640) "images" true) /\
  forall g,
    resolve_geometry (fun _ => None) (JObj []) "images"
      [JInt 8; JInt 3; JInt 416; JInt 416] = ok g ->
    batching_enabled g = false /\ batch_size g = JInt 8.
Proof.
  split.
  - destruct (geometry_resolution (fun _ => None)
                [("resize", JObj [("format", JStr "Stretch to"); ("height", JInt 480);
                                  ("width", JInt 640)])]
                "images" (JStr "batch") (JInt 3) (JStr "height") (JStr "width"))
      as (Hsym & _).
    destruct (Hsym eq_refl) as (Hdeclared & _).
    exact (Hdeclared _ (JInt 480) (JInt 640) 480%Z 640%Z
             eq_refl eq_refl eq_refl eq_refl eq_refl).
  - intros g Hg.
    destruct (geometry_resolution (fun _ => None) [] "images"
                (JInt 8) (JInt 3) (JInt 416) (JInt 416))
      as (_ & _ & Hbatch).
    destruct (Hbatch g Hg) as (_ & _ & Hint).
    exact (Hint 8%Z eq_refl).
Defined.

(** ** Colours *)

(** C6 fails on the code at an explicit [COLORS] mapping: the mapping is a
    dictionary, it is handed to [json.loads], and [json.loads] raises
    [TypeError] on anything but text. *)
Theorem explicit_COLORS_raise_TypeError (json_parse : string -> option json) :
  get_color_mapping_from_environment json_parse
    (JObj [("PREPROCESSING", JStr "{}");
           ("COLORS", JObj [("dog", JStr "#FF0000")])])
    [JStr "dog"]
    = raise TypeError.
Proof. reflexivity. Qed.

(** The same for every environment that holds a [COLORS] dictionary. *)
Lemma COLORS_dictionary_raises (json_parse : string -> option json)
    (env colors : pydict) (class_names : list json) :
  dict_get "COLORS" env = Some (JObj colors) ->
  get_color_mapping_from_environment json_parse (JObj env) class_names
    = raise TypeError.
Proof.
  intros Hc.
  unfold get_color_mapping_from_environment, color_mapping_available_in_environment,
    py_contains, py_index, dict_mem, dict_index.
  rewrite Hc. reflexivity.
Qed.

(** A [COLORS] entry that is JSON text fails the dictionary test of the
    guard, and the palette is used instead of it. *)
Lemma COLORS_text_is_ignored (json_parse : string -> option json) :
  get_color_mapping_from_environment json_parse
    (JObj [("PREPROCESSING", JStr "{}");
           ("COLORS", JStr "{}")])
    [JStr "dog"]
    = ok (PaletteColors [(JStr "dog", "#4892EA")]).
Proof. reflexivity. Qed.

Lemma palette_color_cycles (i : nat) : palette_color (i + 9) = palette_color i.
Proof.
  unfold palette_color. simpl length.
  replace (i + 9) with (i + 1 * 9) by lia.
  by rewrite Nat.Div0.mod_add.
Qed.

(** Without [COLORS], ten classes: the first and the tenth get the first
    colour of the palette. *)
Lemma ten_classes_share_a_colour (json_parse : string -> option json) :
  exists m,
    get_color_mapping_from_environment json_parse
      (JObj [("PREPROCESSING", JStr "{}")])
      (map JStr ["a"; "b"; "c"; "d"; "e"; "f"; "g"; "h"; "i"; "j"])
      = ok (PaletteColors m) /\
    kdict_get (JStr "a") m = Some "#4892EA" /\
    kdict_get (JStr "j") m = Some "#4892EA".
Proof. eexists. split; [reflexivity |]. split; reflexivity. Qed.

(** ** Batch preprocessing *)

Section ThreadPool.

Context {A B : Type}.
Variable f : A -> B.
Variable xs : list A.

Lemma futures_sound_step (slots : list (option B)) (order : list nat) :
  futures_sound f xs slots ->
  futures_sound f xs
    (foldl (fun slots i => match xs !! i with
                           | Some x => <[i := Some (f x)]> slots
                           | None => slots
                           end) slots order).
Proof.
  revert slots. induction order as [| j order IH]; intros slots Hs; simpl.
  - exact Hs.
  - apply IH. destruct (xs !! j) as [x |] eqn:Hx; [| exact Hs].
    intros i y Hi. destruct (decide (i = j)) as [-> | Hne].
    + destruct (decide (j < length slots)) as [Hlt | Hge].
      * rewrite list_lookup_insert_eq in Hi by exact Hlt.
        injection Hi as <-. eauto.
      * rewrite list_insert_ge in Hi by lia. by apply Hs.
    + rewrite list_lookup_insert_ne in Hi by congruence. by apply Hs.
Qed.

Lemma completed_futures_sound (order : list nat) :
  futures_sound f xs (completed_futures f xs order).
Proof.
  apply futures_sound_step. intros i y Hi.
  apply lookup_replicate in Hi as [Hi _]. discriminate Hi.
Qed.

(** Whatever the order in which the workers finish, the results come in
    the order of the inputs. *)
Lemma threadpool_map_in_input_order (order : list nat) :
  threadpool_map f xs order = map f xs.
Proof.
  unfold threadpool_map.
  transitivity (imap (fun _ => f) xs); [| apply imap_const].
  apply imap_ext. intros i x Hx. simpl.
  destruct (completed_futures f xs order !! i) as [[y |] |] eqn:Hi; try reflexivity.
  destruct (completed_futures_sound order i y Hi) as (x' & Hx' & ->).
  congruence.
Qed.

End ThreadPool.


(** *** Arrays *)







Section BatchProperties.

Variable image : Type.
Variable load_image_util : image -> bool -> result (ndarray * bool).
Variable prepare : ndarray -> json -> flags -> result (ndarray * (Z * Z)).
Variable cv2_resize : ndarray -> json * json -> result ndarray.
Variable letterbox_image : ndarray -> json * json -> Z * Z * Z -> result ndarray.
Variable cvtColor_BGR2RGB : ndarray -> result ndarray.
Variable cfg : config.
Variable a : artefacts.
Variable g : geometry.
Variable order : list nat.





End BatchProperties.



(** * Further properties of the code *)

(** ** Construction *)

(** The API key check comes first: without a key and without the Lambda
    credentials the constructor raises [MissingApiKeyError] whatever the model
    id is, and nothing has happened by then (no cache directory). *)
Theorem missing_api_key_precedes_everything
    (cfg : config) (c : variant) (model_id root : string) (key : option string)
    (w : world)
    (Hkey : has_credentials cfg key = false) :
  RoboflowInferenceModel_init cfg c model_id root key w = (raise MissingApiKeyError, w).
Proof.
  unfold has_credentials in Hkey.
  apply orb_false_iff in Hkey as [Hapi Haws].
  unfold RoboflowInferenceModel_init. rewrite Hapi, Haws. reflexivity.
Qed.

Lemma missing_api_key_witness :
  RoboflowInferenceModel_init example_bare_config OnnxRoboflowInferenceModel_class
    "no-separator" "/tmp/cache" (Some "") empty_world
    = (raise MissingApiKeyError, empty_world).
Proof.
  apply (missing_api_key_precedes_everything example_bare_config
           OnnxRoboflowInferenceModel_class "no-separator" "/tmp/cache" (Some "")
           empty_world).
  reflexivity.
Defined.

(** ** Requests to the Roboflow API *)

Lemma raise_for_status_ok (r : response) :
  ~ is_error_status r -> raise_for_status r = ok tt.
Proof.
  unfold is_error_status, raise_for_status. intros Hs.
  destruct (400 <=? status_code r)%Z eqn:H1; [| reflexivity].
  destruct (status_code r <? 600)%Z eqn:H2; [| reflexivity].
  exfalso. apply Hs. lia.
Qed.

Lemma raise_for_status_error (r : response) :
  is_error_status r -> raise_for_status r = raise HTTPError.
Proof.
  unfold is_error_status, raise_for_status. intros [H1 H2].
  apply Z.leb_le in H1. apply Z.ltb_lt in H2. by rewrite H1, H2.
Qed.

Lemma model_data_returned cfg h key model_id t device w url r j :
  wrap_url h (JStr (model_data_url cfg key model_id t device)) = ok url ->
  requests_get h (trace w) url = ok r ->
  ~ is_error_status r ->
  json_body r = Some j ->
  get_roboflow_model_data cfg h key model_id t device w =
    (ok j, World (fs w) (trace w ++ [HttpGet url])).
Proof.
  intros Hurl Hreq Hstatus Hjson.
  unfold get_roboflow_model_data, wrap_roboflow_api_errors, bind, lift,
    requests_get_call, response_json.
  fold (model_data_url cfg key model_id t device).
  pose proof (raise_for_status_ok r Hstatus) as Hok.
  unfold ok, raise in *. rewrite Hurl. cbv beta iota. rewrite Hreq.
  cbv beta iota. rewrite Hok. cbv beta iota. rewrite Hjson. reflexivity.
Qed.

(** [get_roboflow_model_data] makes exactly one request, to the address
    built from its arguments, and touches no file.  A connection failure comes
    out as [RoboflowAPIConnectionError], a status from 400 to 599 as
    [ModelDataFetchingError], a body that is not JSON as
    [MalformedRoboflowAPIResponseError]; otherwise the decoded body is
    returned. *)
Theorem model_data_request_outcomes
    (cfg : config) (h : host) (key : option string) (model_id : string)
    (t : ModelEndpointType) (device : string) (w : world) (url : string)
    (Hurl : wrap_url h (JStr (model_data_url cfg key model_id t device)) = ok url) :
  let r := get_roboflow_model_data cfg h key model_id t device w in
  snd r = World (fs w) (trace w ++ [HttpGet url]) /\
  (requests_get h (trace w) url = raise ConnectionError ->
     fst r = raise RoboflowAPIConnectionError) /\
  (forall resp,
     requests_get h (trace w) url = ok resp ->
     (is_error_status resp -> fst r = raise ModelDataFetchingError) /\
     (~ is_error_status resp -> json_body resp = None ->
        fst r = raise MalformedRoboflowAPIResponseError) /\
     (~ is_error_status resp -> forall j, json_body resp = Some j -> fst r = ok j)).
Proof.
  intros r. subst r.
  unfold get_roboflow_model_data, wrap_roboflow_api_errors, bind, lift,
    requests_get_call, response_json.
  fold (model_data_url cfg key model_id t device).
  unfold ok, raise in *. rewrite Hurl. cbv beta iota.
  split; [| split].
  - destruct (requests_get h (trace w) url) as [e | resp]; [destruct e; reflexivity |].
    destruct (raise_for_status resp) as [e | []]; [destruct e; reflexivity |].
    destruct (json_body resp); reflexivity.
  - intros Hreq. unfold raise in Hreq. rewrite Hreq. reflexivity.
  - intros resp Hreq. unfold ok in Hreq. rewrite Hreq. cbv beta iota.
    split; [| split].
    + intros Hs. rewrite (raise_for_status_error resp Hs). reflexivity.
    + intros Hs Hj. rewrite (raise_for_status_ok resp Hs). unfold ok.
      cbv beta iota. rewrite Hj. reflexivity.
    + intros Hs j Hj. rewrite (raise_for_status_ok resp Hs). unfold ok.
      cbv beta iota. rewrite Hj. reflexivity.
Qed.

Lemma model_data_request_witness :
  fst (get_roboflow_model_data example_config
         (constant_host (Response 403 "" (Some (JObj [])))) (Some "key") "coins/3" ORT
         "device" empty_world)
    = raise ModelDataFetchingError.
Proof.
  destruct (model_data_request_outcomes example_config
              (constant_host (Response 403 "" (Some (JObj [])))) (Some "key")
              "coins/3" ORT "device" empty_world _ eq_refl) as (_ & _ & Hresp).
  destruct (Hresp _ eq_refl) as (Herr & _).
  apply Herr. unfold is_error_status. simpl. lia.
Defined.

(** ** The per-file API path *)

Ltac run_code :=
  unfold bind, lift, ret, throw, write_file;
  unfold ok, raise in *;
  cbv beta iota; cbn [negb trace fs fst snd]; cbv beta iota.

(** The ONNX path asks for the description, then the environment, then the
    weights, and stores what it is sent: the body of the weights answer under
    the weights filename of the model, the environment (with the colours of the
    description put under [COLORS]) as [environment.json], saved with no model
    id.  Neither download is checked for its status. *)
Theorem api_fetch_stores_what_it_is_sent
    (cfg : config) (h : host) (self : model) (w : world)
    (u0 u1 u2 : string) (r0 r1 r2 : response)
    (top ort env : pydict) (environment_url model_url : json) (weights : string)
    (Hurl0 : wrap_url h (JStr (model_data_url cfg (api_key self) (endpoint self) ORT
                                 (device_id self))) = ok u0)
    (Hreq0 : requests_get h (trace w) u0 = ok r0)
    (Hstatus0 : ~ is_error_status r0)
    (Hjson0 : json_body r0 = Some (JObj top))
    (Hort : dict_get "ort" top = Some (JObj ort))
    (Hclasses : dict_get "classes" ort = None)
    (Hmodel : dict_get "model" ort = Some model_url)
    (Henvironment : dict_get "environment" ort = Some environment_url)
    (Hurl1 : wrap_url h environment_url = ok u1)
    (Hreq1 : requests_get h (trace w ++ [HttpGet u0]) u1 = ok r1)
    (Hjson1 : json_body r1 = Some (JObj env))
    (Hurl2 : wrap_url h model_url = ok u2)
    (Hreq2 : requests_get h ((trace w ++ [HttpGet u0]) ++ [HttpGet u1]) u2 = ok r2)
    (Hweights : weights_file (class_of self) = ok weights) :
  download_model_artefacts_from_roboflow_api cfg h self w =
    (ok tt,
     World
       (<[get_cache_file_path cfg "environment.json" None :=
            Json (JObj (match dict_get "colors" ort with
                        | Some c => dict_set "COLORS" c env
                        | None => env
                        end))]>
          (<[get_cache_file_path cfg weights (Some (endpoint self)) :=
               Bytes (body r2)]> (fs w)))
       (((trace w ++ [HttpGet u0]) ++ [HttpGet u1]) ++ [HttpGet u2])).
Proof.
  unfold download_model_artefacts_from_roboflow_api.
  unfold bind at 1.
  rewrite (model_data_returned cfg h _ _ _ _ w u0 r0 (JObj top) Hurl0 Hreq0 Hstatus0 Hjson0).
  unfold py_contains, py_index, dict_mem, dict_index,
    get_from_roboflow_api_json, get_from_roboflow_api, wrap_roboflow_api_errors,
    requests_get_call, response_json, save_bytes_in_cache, save_json_in_cache.
  run_code.
  rewrite Hort. run_code. rewrite Hclasses. run_code.
  rewrite Hmodel. run_code. rewrite Henvironment. run_code.
  rewrite Hurl1. run_code. rewrite Hreq1. run_code. rewrite Hjson1. run_code.
  rewrite Hurl2. run_code. rewrite Hreq2. run_code.
  rewrite Hweights. run_code.
  destruct (dict_get "colors" ort); reflexivity.
Qed.

Lemma api_fetch_witness :
  download_model_artefacts_from_roboflow_api example_config example_api_host
    example_onnx_model empty_world =
    (ok tt,
     World
       (<["/tmp/cache/environment.json" :=
            Json (JObj [("PREPROCESSING", JStr "{}");
                        ("COLORS", JObj [("penny", JStr "#FF0000")])])]>
          (<["/tmp/cache/coins/3/weights.onnx" := Bytes "not the weights"]> ∅))
       [HttpGet "https://api.roboflow.com/ort/coins/3?api_key=key&device=device&nocache=true&dynamic=true";
        HttpGet "https://files/environment";
        HttpGet "https://files/weights"]).
Proof.
  apply (api_fetch_stores_what_it_is_sent example_config example_api_host
           example_onnx_model empty_world
           "https://api.roboflow.com/ort/coins/3?api_key=key&device=device&nocache=true&dynamic=true"
           "https://files/environment" "https://files/weights"
           (Response 200 ""
              (Some (JObj [("ort",
                 JObj [("model", JStr "https://files/weights");
                       ("environment", JStr "https://files/environment");
                       ("colors", JObj [("penny", JStr "#FF0000")])])])))
           (Response 404 "" (Some (JObj [("PREPROCESSING", JStr "{}")])))
           (Response 503 "not the weights" None)
           [("ort",
             JObj [("model", JStr "https://files/weights");
                   ("environment", JStr "https://files/environment");
                   ("colors", JObj [("penny", JStr "#FF0000")])])]
           [("model", JStr "https://files/weights");
            ("environment", JStr "https://files/environment");
            ("colors", JObj [("penny", JStr "#FF0000")])]
           [("PREPROCESSING", JStr "{}")]
           (JStr "https://files/environment") (JStr "https://files/weights")
           "weights.onnx");
    try reflexivity.
  unfold is_error_status. simpl. lia.
Defined.

(** The description is validated before anything is downloaded: when the
    answer has no [ort] entry, or its [ort] entry (without a class list) lacks
    [model] or [environment], the ONNX path raises [ModelArtefactError] after
    the one request for the description, and no file is written. *)
Theorem api_description_is_validated_before_any_download
    (cfg : config) (h : host) (self : model) (w : world)
    (u0 : string) (r0 : response) (top : pydict)
    (Hurl0 : wrap_url h (JStr (model_data_url cfg (api_key self) (endpoint self) ORT
                                 (device_id self))) = ok u0)
    (Hreq0 : requests_get h (trace w) u0 = ok r0)
    (Hstatus0 : ~ is_error_status r0)
    (Hjson0 : json_body r0 = Some (JObj top))
    (Hmissing :
       dict_get "ort" top = None \/
       exists ort,
         dict_get "ort" top = Some (JObj ort) /\
         dict_get "classes" ort = None /\
         (dict_get "model" ort = None \/ dict_get "environment" ort = None)) :
  download_model_artefacts_from_roboflow_api cfg h self w =
    (raise ModelArtefactError, World (fs w) (trace w ++ [HttpGet u0])).
Proof.
  unfold download_model_artefacts_from_roboflow_api.
  unfold bind at 1.
  rewrite (model_data_returned cfg h _ _ _ _ w u0 r0 (JObj top) Hurl0 Hreq0 Hstatus0 Hjson0).
  unfold py_contains, py_index, dict_mem, dict_index.
  destruct Hmissing as [Hort | (ort & Hort & Hclasses & Hkeys)].
  - run_code. rewrite Hort. reflexivity.
  - run_code. rewrite Hort. run_code. rewrite Hclasses. run_code.
    destruct Hkeys as [Hmodel | Henv].
    + rewrite Hmodel. reflexivity.
    + rewrite Henv. destruct (dict_get "model" ort); reflexivity.
Qed.

Lemma api_description_witness :
  download_model_artefacts_from_roboflow_api example_config
    (constant_host (Response 200 "" (Some (JObj [("version", JStr "3")]))))
    example_onnx_model empty_world =
    (raise ModelArtefactError,
     World ∅ [HttpGet "https://api.roboflow.com/ort/coins/3?api_key=key&device=device&nocache=true&dynamic=true"]).
Proof.
  apply (api_description_is_validated_before_any_download example_config
           (constant_host (Response 200 "" (Some (JObj [("version", JStr "3")]))))
           example_onnx_model empty_world _
           (Response 200 "" (Some (JObj [("version", JStr "3")])))
           [("version", JStr "3")]);
    try reflexivity.
  - unfold is_error_status. simpl. lia.
  - left. reflexivity.
Defined.

(** ** Core models *)

(** A core model description without [weights] is rejected with
    [ModelArtefactError] after the one request for it; no file is written. *)
Theorem core_description_without_weights_is_rejected
    (cfg : config) (h : host) (self : model) (w : world)
    (u0 : string) (r0 : response) (top : pydict)
    (Hurl0 : wrap_url h (JStr (model_data_url cfg (api_key self) (endpoint self)
                                 CORE_MODEL (device_id self))) = ok u0)
    (Hreq0 : requests_get h (trace w) u0 = ok r0)
    (Hstatus0 : ~ is_error_status r0)
    (Hjson0 : json_body r0 = Some (JObj top))
    (Hweights : dict_get "weights" top = None) :
  download_mode_from_roboflow_api cfg h self w =
    (raise ModelArtefactError, World (fs w) (trace w ++ [HttpGet u0])).
Proof.
  unfold download_mode_from_roboflow_api.
  unfold bind at 1.
  rewrite (model_data_returned cfg h _ _ _ _ w u0 r0 (JObj top) Hurl0 Hreq0 Hstatus0 Hjson0).
  unfold py_contains, dict_mem. run_code. rewrite Hweights. reflexivity.
Qed.

Lemma core_description_witness :
  download_mode_from_roboflow_api example_config
    (constant_host (Response 200 "" (Some (JObj []))))
    example_doctr_det_model empty_world =
    (raise ModelArtefactError,
     World ∅ [HttpGet "https://api.roboflow.com/core_model/doctr_det/db_resnet50?api_key=key&device=device&nocache=true&dynamic=true"]).
Proof.
  apply (core_description_without_weights_is_rejected example_config
           (constant_host (Response 200 "" (Some (JObj []))))
           example_doctr_det_model empty_world _
           (Response 200 "" (Some (JObj []))) []);
    try reflexivity.
  unfold is_error_status. simpl. lia.
Defined.

(** A class that has a file list but no weights filename (the DocTR
    classes) cannot be fetched from the bulk source: with an incomplete cache
    and the bulk source available, [download_weights] raises
    [ModelArtefactError] right after the cache check, without any S3 download
    or API request. *)
Theorem core_model_cannot_use_the_bulk_source
    (cfg : config) (h : host) (self : model) (w : world) (files : list string)
    (Hfiles : get_infer_bucket_file_list (class_of self) = ok files)
    (Hweights : weights_file (class_of self) = raise NotImplementedError)
    (Hmiss : all_files_present cfg files (endpoint self) w = false)
    (Havail : is_model_artefacts_bucket_available cfg = true) :
  download_weights cfg h self w =
    (raise ModelArtefactError,
     World (fs w) (trace w ++ [CacheCheck (endpoint self) files])).
Proof.
  pose proof (run_fetch_incomplete cfg h DownloadWeights self w files Hfiles Hmiss)
    as Hrun.
  simpl in Hrun. rewrite Hrun, Havail.
  apply (bulk_download_of_core_model_never_starts cfg h self _ files Hfiles Hweights).
Qed.

Lemma core_model_bulk_witness :
  download_weights example_lambda_config unreachable_host example_doctr_det_model
    empty_world =
    (raise ModelArtefactError,
     World ∅ [CacheCheck "doctr_det/db_resnet50" ["model.pt"]]).
Proof.
  apply (core_model_cannot_use_the_bulk_source example_lambda_config unreachable_host
           example_doctr_det_model empty_world ["model.pt"]);
    reflexivity.
Defined.

Lemma init_with_two_segments cfg c model_id root key w d v :
  has_credentials cfg key = true ->
  str_split slash model_id = [d; v] ->
  RoboflowInferenceModel_init cfg c model_id root key w =
    (ok (Model c (if truthy_str key then key else API_KEY cfg) d v model_id
           (GLOBAL_DEVICE_ID cfg) (path_join root model_id)),
     World (fs w) (trace w ++ [CacheInit (get_cache_dir cfg (Some model_id))])).
Proof.
  intros Hkey Hsplit.
  assert (Hgate :
    negb (truthy_str (if truthy_str key then key else API_KEY cfg)) &&
    negb (truthy_str (AWS_SECRET_ACCESS_KEY cfg) &&
          (truthy_str (AWS_ACCESS_KEY_ID cfg) && LAMBDA cfg)) = false).
  { unfold has_credentials in Hkey.
    destruct (truthy_str (if truthy_str key then key else API_KEY cfg)); simpl in *;
      [reflexivity |].
    rewrite Hkey. reflexivity. }
  unfold RoboflowInferenceModel_init. rewrite Hgate, Hsplit. reflexivity.
Qed.

(** With credentials and [model.pt] in the cache, [DocTRDet(api_key=key)]
    builds the model for [doctr_det/db_resnet50] (dataset [doctr_det], version
    [db_resnet50]) and does nothing but create the cache directory and check
    the cache. *)
Theorem DocTRDet_is_built_from_the_cache
    (cfg : config) (h : host) (key : option string) (w : world)
    (Hkey : has_credentials cfg key = true)
    (Hcached : is_Some (fs w !! get_cache_file_path cfg "model.pt"
                                  (Some "doctr_det/db_resnet50"))) :
  exists self,
    DocTRDet_init cfg h key w =
      (ok self,
       World (fs w)
         ((trace w ++ [CacheInit (get_cache_dir cfg (Some "doctr_det/db_resnet50"))])
          ++ [CacheCheck "doctr_det/db_resnet50" ["model.pt"]])) /\
    dataset_id self = "doctr_det" /\
    version_id self = "db_resnet50" /\
    endpoint self = "doctr_det/db_resnet50".
Proof.
  set (self := Model DocTRDet_class (if truthy_str key then key else API_KEY cfg)
                 "doctr_det" "db_resnet50" "doctr_det/db_resnet50"
                 (GLOBAL_DEVICE_ID cfg)
                 (path_join (MODEL_CACHE_DIR cfg) "doctr_det/db_resnet50")).
  exists self. split; [| auto].
  unfold DocTRDet_init, RoboflowCoreModel_init.
  unfold bind at 1. unfold lift at 1. cbn [get_infer_bucket_file_list DocTRDet_class].
  unfold ok at 1. cbv beta iota.
  unfold bind at 1.
  rewrite (init_with_two_segments cfg DocTRDet_class "doctr_det/db_resnet50"
             (MODEL_CACHE_DIR cfg) key w "doctr_det" "db_resnet50" Hkey eq_refl).
  fold self. unfold ok at 1. cbv beta iota.
  unfold bind at 1.
  set (w1 := World (fs w) (trace w ++ [CacheInit (get_cache_dir cfg (Some "doctr_det/db_resnet50"))])).
  assert (Hall : all_files_present cfg ["model.pt"] (endpoint self) w1 = true).
  { unfold all_files_present. cbn [forallb endpoint self w1 fs].
    rewrite (bool_decide_eq_true_2 _ Hcached). reflexivity. }
  pose proof (run_fetch_cached cfg h DownloadWeights self w1 ["model.pt"] eq_refl Hall)
    as Hrun.
  cbn [run_fetch] in Hrun. rewrite Hrun. reflexivity.
Qed.

Lemma DocTRDet_witness :
  exists self,
    DocTRDet_init example_config unreachable_host None doctr_det_cached_world =
      (ok self,
       World (fs doctr_det_cached_world)
         [CacheInit "/tmp/cache/doctr_det/db_resnet50";
          CacheCheck "doctr_det/db_resnet50" ["model.pt"]]) /\
    dataset_id self = "doctr_det" /\
    version_id self = "db_resnet50" /\
    endpoint self = "doctr_det/db_resnet50".
Proof.
  apply (DocTRDet_is_built_from_the_cache example_config unreachable_host None
           doctr_det_cached_world).
  - reflexivity.
  - vm_compute. eauto.
Defined.

(** ** Loading the artefacts *)

Lemma assign_colors_of_strings (names : list string) :
  forall i acc, exists m, assign_colors i (map JStr names) acc = ok m.
Proof.
  induction names as [| n r IH]; intros i acc; simpl; eauto.
Qed.

Lemma select_resize_method_recognised (preproc : json) (m : string) :
  select_resize_method preproc = ok m -> In m recognised_resize_methods.
Proof.
  unfold select_resize_method. intros H. unfold ok, raise in *.
  destruct (py_get preproc "resize" JNull) as [e | resize]; [discriminate H |].
  simpl in H. destruct (truthy resize).
  - destruct (py_index preproc "resize") as [e | r]; [discriminate H |].
    simpl in H.
    destruct (py_get r "format" (JStr "Stretch to")) as [e | format];
      [discriminate H |].
    simpl in H.
    destruct format; try (injection H as <-; simpl; auto).
    repeat match type of H with
           | context [String.eqb ?x ?y] =>
               destruct (String.eqb_spec x y); simpl in H
           end;
      injection H as <-; subst; simpl; auto.
  - injection H as <-. simpl. auto.
Qed.

(** Whatever the environment declares, the resize method of a loaded model
    is one of the three [preproc_image] knows, and the number of classes is
    the number of class names. *)
Theorem loaded_resize_method_is_recognised
    (cfg : config) (json_parse : string -> option json) (self : model)
    (w w' : world) (a : artefacts)
    (Hload : load_model_artefacts_from_cache cfg json_parse self w = (ok a, w')) :
  In (resize_method a)
     ["Stretch to"; "Fit (black edges) in"; "Fit (white edges) in"] /\
  num_classes a = length (class_names a).
Proof.
  unfold load_model_artefacts_from_cache, bind, lift, ret, throw,
    load_json_from_cache, load_text_file_from_cache in Hload.
  unfold ok, raise in *.
  repeat match type of Hload with
         | context [match ?x with _ => _ end] =>
             let E := fresh "E" in
             destruct x eqn:E; try discriminate Hload
         end;
    injection Hload as <- _;
    (split; [eapply select_resize_method_recognised; eassumption | reflexivity]).
Qed.

Lemma loaded_resize_method_witness :
  In (resize_method
        (Artefacts (JObj [("PREPROCESSING", JStr "letterbox")])
           [JStr "penny"; JStr "dime"]
           (PaletteColors [(JStr "penny", "#4892EA"); (JStr "dime", "#00EEC3")])
           2
           (JObj [("resize", JObj [("format", JStr "Fit (black edges) in");
                                   ("height", JInt 480); ("width", JInt 640)])])
           "Fit (black edges) in"))
     ["Stretch to"; "Fit (black edges) in"; "Fit (white edges) in"].
Proof.
  apply (loaded_resize_method_is_recognised example_config example_json_parse
           example_onnx_model onnx_ready_world onnx_ready_world).
  vm_compute. reflexivity.
Defined.

(** An environment file without [PREPROCESSING] makes the load fail with
    [ModelArtefactError], even when the class names and the colours are there. *)
Theorem missing_PREPROCESSING_fails_the_load
    (cfg : config) (json_parse : string -> option json) (self : model) (w : world)
    (files lines : list string) (env : pydict)
    (Hfiles : get_all_required_infer_bucket_file self = ok files)
    (Henv_listed : existsb (String.eqb "environment.json") files = true)
    (Hnames_listed : existsb (String.eqb "class_names.txt") files = true)
    (Henv : fs w !! get_cache_file_path cfg "environment.json" (Some (endpoint self))
            = Some (Json (JObj env)))
    (Hnames : fs w !! get_cache_file_path cfg "class_names.txt" (Some (endpoint self))
              = Some (Lines lines))
    (Hcolors : dict_get "COLORS" env = None)
    (Hpre : dict_get "PREPROCESSING" env = None) :
  load_model_artefacts_from_cache cfg json_parse self w = (raise ModelArtefactError, w).
Proof.
  destruct (assign_colors_of_strings lines 0 []) as (m & Hm).
  unfold load_model_artefacts_from_cache, load_json_from_cache,
    load_text_file_from_cache, get_color_mapping_from_environment,
    color_mapping_available_in_environment, py_contains, dict_mem.
  run_code. rewrite Hfiles. run_code. rewrite Henv_listed, Henv. run_code.
  rewrite Hnames_listed, Hnames. run_code.
  rewrite Hcolors. cbn [rbind]. rewrite Hm. cbn [rbind]. run_code.
  rewrite Hpre. reflexivity.
Qed.

Lemma missing_PREPROCESSING_witness :
  load_model_artefacts_from_cache example_config example_json_parse
    example_onnx_model onnx_cached_world
    = (raise ModelArtefactError, onnx_cached_world).
Proof.
  apply (missing_PREPROCESSING_fails_the_load example_config example_json_parse
           example_onnx_model onnx_cached_world
           ["environment.json"; "class_names.txt"; "weights.onnx"] ["penny"] []);
    reflexivity.
Defined.

(** Without a usable [CLASS_MAP] there are no class names: a missing
    environment, an environment without [CLASS_MAP], or a [CLASS_MAP] that is
    not a dictionary all raise [ModelArtefactError]. *)
Theorem class_names_need_a_CLASS_MAP_dictionary (env : pydict)
    (Hmissing : dict_get "CLASS_MAP" env = None \/
                exists v, dict_get "CLASS_MAP" env = Some v /\ is_dict v = false) :
  get_class_names_from_environment_file (JObj env) = raise ModelArtefactError /\
  get_class_names_from_environment_file JNull = raise ModelArtefactError.
Proof.
  split; [| reflexivity].
  unfold get_class_names_from_environment_file,
    class_mapping_not_available_in_environment, py_contains, py_index,
    dict_mem, dict_index.
  destruct Hmissing as [Hnone | (v & Hv & Hdict)].
  - rewrite Hnone. reflexivity.
  - rewrite Hv. simpl. rewrite Hdict. reflexivity.
Qed.

Lemma class_names_need_a_CLASS_MAP_witness :
  get_class_names_from_environment_file
    (JObj [("CLASS_MAP", JList [JStr "dog"; JStr "cat"])])
    = raise ModelArtefactError.
Proof.
  apply (class_names_need_a_CLASS_MAP_dictionary
           [("CLASS_MAP", JList [JStr "dog"; JStr "cat"])]).
  right. eexists. split; reflexivity.
Defined.

(** There are as many class names as [CLASS_MAP] has entries. *)
Theorem one_class_name_per_CLASS_MAP_entry (env class_map : pydict)
    (Hmap : dict_get "CLASS_MAP" env = Some (JObj class_map)) :
  exists names,
    get_class_names_from_environment_file (JObj env) = ok names /\
    length names = length class_map.
Proof.
  destruct (comprehension_over_keys class_map (sorted_keys (dict_keys class_map)))
    as (names & Hnames & Hall).
  { intros k Hk. unfold sorted_keys in Hk.
    by rewrite merge_sort_Permutation in Hk. }
  exists names. split.
  - by rewrite (get_class_names_of_class_map env class_map Hmap).
  - rewrite <- (Forall2_length _ _ _ Hall). unfold sorted_keys.
    rewrite (Permutation_length (merge_sort_Permutation string_le (dict_keys class_map))).
    unfold dict_keys. by rewrite length_map.
Qed.

Lemma one_class_name_per_entry_witness :
  exists names,
    get_class_names_from_environment_file
      (JObj [("CLASS_MAP", JObj [("1", JStr "cat"); ("0", JStr "dog")])]) = ok names /\
    length names = 2.
Proof.
  apply (one_class_name_per_CLASS_MAP_entry
           [("CLASS_MAP", JObj [("1", JStr "cat"); ("0", JStr "dog")])]
           [("1", JStr "cat"); ("0", JStr "dog")]).
  reflexivity.
Defined.

(** ** More on the input geometry *)

(** Whatever the engine reports and whatever the preprocessing spec holds,
    a resolved height and width are never symbolic. *)
Theorem resolved_sizes_are_never_symbolic
    (int_of_str : string -> option Z) (preproc : json) (name : string)
    (input_shape : list json) (g : geometry)
    (Hg : resolve_geometry int_of_str preproc name input_shape = ok g) :
  is_str (img_size_h g) = false /\ is_str (img_size_w g) = false.
Proof.
  unfold resolve_geometry in Hg. unfold ok, raise in *.
  destruct (list_index input_shape 0) as [e | b]; [discriminate Hg |].
  destruct (list_index input_shape 2) as [e | hd]; [discriminate Hg |].
  destruct (list_index input_shape 3) as [e | wd]; [discriminate Hg |].
  cbn [rbind] in Hg.
  destruct (is_str hd || is_str wd) eqn:Hsym.
  - destruct (py_contains "resize" preproc) as [e | declared];
      cbn [rbind] in Hg; [discriminate Hg |].
    destruct declared.
    + destruct (py_index preproc "resize") as [e | resize];
        cbn [rbind] in Hg; [discriminate Hg |].
      destruct (py_getitem resize (JStr "height")) as [e | height];
        cbn [rbind] in Hg; [discriminate Hg |].
      destruct (py_int int_of_str height) as [e | h];
        cbn [rbind] in Hg; [discriminate Hg |].
      destruct (py_getitem resize (JStr "width")) as [e | width];
        cbn [rbind] in Hg; [discriminate Hg |].
      destruct (py_int int_of_str width) as [e | wi];
        cbn [rbind] in Hg; [discriminate Hg |].
      injection Hg as <-. auto.
    + cbn [rbind] in Hg. injection Hg as <-. auto.
  - cbn [rbind] in Hg. injection Hg as <-.
    apply orb_false_iff in Hsym. exact Hsym.
Qed.

Lemma resolved_sizes_witness :
  is_str (JInt 640) = false /\ is_str (JInt 640) = false.
Proof.
  apply (resolved_sizes_are_never_symbolic (fun _ => None) (JObj []) "images"
           [JInt 1; JInt 3; JStr "height"; JInt 416]
           (Geometry (JInt 1) (JInt 640) (JInt 640) "images" false)).
  reflexivity.
Defined.

(** An input shape with fewer than four dimensions raises [IndexError]. *)
Theorem short_input_shape_raises_IndexError
    (int_of_str : string -> option Z) (preproc : json) (name : string)
    (input_shape : list json)
    (Hshort : length input_shape < 4) :
  resolve_geometry int_of_str preproc name input_shape = raise IndexError.
Proof.
  destruct input_shape as [| b [| c [| hd [| wd rest]]]]; simpl in Hshort;
    try reflexivity.
  lia.
Qed.

Lemma short_input_shape_witness :
  resolve_geometry (fun _ => None) (JObj []) "images" [JInt 1; JInt 3; JInt 640]
    = raise IndexError.
Proof.
  apply (short_input_shape_raises_IndexError (fun _ => None) (JObj []) "images"
           [JInt 1; JInt 3; JInt 640]).
  simpl. lia.
Defined.

(** ** The default palette *)


(** Two NaN names read from one JSON document are one key: the second
    colour replaces the first. *)
Example NaN_names_share_an_entry :
  assign_colors 0 [JFloat FNan; JFloat FNan] []
    = ok [(JFloat FNan, palette_color 1)].
Proof. reflexivity. Qed.





(** ** Failures in a batch *)

Lemma comprehension_first_failure {A B} (f : A -> result B)
    (good : list A) (bad : A) (rest : list A) (rs : list B) (e : exn) :
  Forall2 (fun x r => f x = ok r) good rs ->
  f bad = raise e ->
  comprehension id (map f (good ++ bad :: rest)) = raise e.
Proof.
  unfold id. intros Hgood Hbad.
  induction Hgood as [| x r xs rs' Hx _ IH]; simpl.
  - rewrite Hbad. reflexivity.
  - rewrite Hx, IH. reflexivity.
Qed.

Section BatchFailure.

Variable image : Type.
Variable load_image_util : image -> bool -> result (ndarray * bool).
Variable prepare : ndarray -> json -> flags -> result (ndarray * (Z * Z)).
Variable cv2_resize : ndarray -> json * json -> result ndarray.
Variable letterbox_image : ndarray -> json * json -> Z * Z * Z -> result ndarray.
Variable cvtColor_BGR2RGB : ndarray -> result ndarray.
Variable cfg : config.
Variable a : artefacts.
Variable g : geometry.
Variable order : list nat.

(** When an image of a list fails to preprocess, [load_image] raises the
    exception of the first such image in the order of the list, whatever the
    order in which the workers finish and whatever the later images do. *)
Theorem first_failing_image_decides_the_exception
    (fl : flags) (good : list image) (bad : image) (rest : list image)
    (results : list (ndarray * (Z * Z))) (e : exn)
    (Hgood : Forall2 (fun img r =>
                preproc_image image load_image_util prepare cv2_resize
                  letterbox_image cvtColor_BGR2RGB cfg a g fl img = ok r)
               good results)
    (Hbad : preproc_image image load_image_util prepare cv2_resize letterbox_image
              cvtColor_BGR2RGB cfg a g fl bad = raise e) :
  load_image image load_image_util prepare cv2_resize letterbox_image
    cvtColor_BGR2RGB cfg a g order (ImageList (good ++ bad :: rest)) fl = raise e.
Proof.
  unfold load_image.
  rewrite threadpool_map_in_input_order.
  rewrite (comprehension_first_failure _ good bad rest results e Hgood Hbad).
  reflexivity.
Qed.

End BatchFailure.

Lemma first_failing_image_witness :
  load_image Z
    (fun n _ => if (n <? 0)%Z then raise (OtherException "InputImageLoadError")
                else ok (NDArray uint8 [1; 1; 3] [n; n; n], false))
    example_prepare example_resize example_letterbox example_cvtColor
    example_config example_artefacts example_geometry [2; 1; 0]
    (ImageList [5; -1; -2]%Z) example_flags
    = raise (OtherException "InputImageLoadError").
Proof.
  apply (first_failing_image_decides_the_exception Z
           (fun n _ => if (n <? 0)%Z then raise (OtherException "InputImageLoadError")
                       else ok (NDArray uint8 [1; 1; 3] [n; n; n], false))
           example_prepare example_resize example_letterbox example_cvtColor
           example_config example_artefacts example_geometry [2; 1; 0]
           example_flags [5%Z] (-1)%Z [(-2)%Z]
           [(NDArray float32 [1; 3; 1; 1] [5; 5; 5]%Z, (1, 1)%Z)]).
  - repeat constructor.
  - reflexivity.
Defined.

(** ** Letterbox *)

(** Whatever the floating-point operations give, the paddings
    [letterbox_image] computes fill the target exactly: paddings and new size
    add up to the desired height and width, the two paddings of an axis differ
    by at most one (the extra pixel goes to the bottom and to the right), and
    one of the two axes is resized to the full target. *)
Theorem letterbox_paddings_fill_the_target
    (float : Type) (int_truediv : Z -> Z -> result float)
    (float_ge : float -> float -> bool)
    (int_div_float : Z -> float -> result float)
    (int_mul_float : Z -> float -> float)
    (int_of_float : float -> result Z)
    (img_shape desired_size : Z * Z) (p : letterbox_plan)
    (Hplan : letterbox_sizes float int_truediv float_ge int_div_float int_mul_float
               int_of_float img_shape desired_size = ok p) :
  (top_padding p + new_height p + bottom_padding p = snd desired_size)%Z /\
  (left_padding p + new_width p + right_padding p = fst desired_size)%Z /\
  (0 <= bottom_padding p - top_padding p <= 1)%Z /\
  (0 <= right_padding p - left_padding p <= 1)%Z /\
  (new_width p = fst desired_size \/ new_height p = snd desired_size).
Proof.
  unfold letterbox_sizes in Hplan. unfold ok, raise in *.
  destruct (int_truediv (snd img_shape) (fst img_shape)) as [e | img_ratio];
    [discriminate Hplan |].
  destruct (int_truediv (fst desired_size) (snd desired_size)) as [e | desired_ratio];
    [discriminate Hplan |].
  cbn [rbind] in Hplan.
  destruct (float_ge img_ratio desired_ratio).
  - destruct (int_div_float (fst desired_size) img_ratio) as [e | q];
      [discriminate Hplan |].
    cbn [rbind] in Hplan.
    destruct (int_of_float q) as [e | nh]; [discriminate Hplan |].
    cbn [rbind fst snd] in Hplan. injection Hplan as <-.
    cbn [top_padding new_height bottom_padding left_padding new_width
         right_padding].
    repeat split; Z.div_mod_to_equations; lia.
  - destruct (int_of_float (int_mul_float (snd desired_size) img_ratio)) as [e | nw];
      [discriminate Hplan |].
    cbn [rbind fst snd] in Hplan. injection Hplan as <-.
    cbn [top_padding new_height bottom_padding left_padding new_width
         right_padding].
    repeat split; Z.div_mod_to_equations; lia.
Qed.

Lemma letterbox_paddings_witness :
  letterbox_sizes Q exact_truediv exact_ge exact_div exact_mul exact_int
    (500, 1000)%Z (640, 480)%Z
    = ok (LetterboxPlan 640 320 80 80 0 0) /\
  (80 + 320 + 80 = 480)%Z.
Proof.
  split; [vm_compute; reflexivity |].
  destruct (letterbox_paddings_fill_the_target Q exact_truediv exact_ge exact_div
              exact_mul exact_int (500, 1000)%Z (640, 480)%Z
              (LetterboxPlan 640 320 80 80 0 0)) as (Hheight & _).
  - vm_compute. reflexivity.
  - exact Hheight.
Defined.

(** ** Workspace, dataset type and model type *)

(** For an answer that is a JSON object with a [version] dictionary,
    [get_roboflow_model_type] returns the declared [modelType], or the default
    of the task type when none is declared, or raises
    [MissingDefaultModelError] when there is neither.  The default is looked
    up even when a [modelType] is declared: for a task type without a default
    the call then raises [KeyError] instead of returning the declared type. *)
Theorem model_type_or_its_default
    (cfg : config) (h : host) (key workspace_id dataset version task : string)
    (w : world) (url : string) (r : response) (info ver : pydict)
    (Hurl : wrap_url h (JStr (str_join "/"
               [API_BASE_URL cfg; workspace_id; dataset; version;
                ("?api_key=" ++ key ++ "&nocache=true")%string])) = ok url)
    (Hreq : requests_get h (trace w) url = ok r)
    (Hstatus : ~ is_error_status r)
    (Hjson : json_body r = Some (JObj info))
    (Hver : dict_get "version" info = Some (JObj ver)) :
  fst (get_roboflow_model_type cfg h key workspace_id dataset version task w) =
    match dict_get "modelType" ver, default_model_type task MODEL_TYPE_DEFAULTS with
    | Some m, Some _ => ok m
    | Some _, None => raise KeyError
    | None, Some d => ok (JStr d)
    | None, None => raise MissingDefaultModelError
    end.
Proof.
  pose proof (raise_for_status_ok r Hstatus) as Hok.
  unfold get_roboflow_model_type, wrap_roboflow_api_errors, requests_get_call,
    response_json, py_index, py_contains, dict_mem, dict_index.
  run_code. rewrite Hurl. run_code. rewrite Hreq. run_code.
  rewrite Hok. run_code. rewrite Hjson. run_code. rewrite Hver. run_code.
  destruct (dict_get "modelType" ver) as [m |];
    destruct (default_model_type task MODEL_TYPE_DEFAULTS) as [d |];
    reflexivity.
Qed.

Lemma model_type_witness :
  fst (get_roboflow_model_type example_config
         (constant_host
            (Response 200 ""
               (Some (JObj [("version", JObj [("modelType", JStr "yolov8n")])]))))
         "key" "workspace" "coins" "3" "keypoint-detection" empty_world)
    = raise KeyError.
Proof.
  apply (model_type_or_its_default example_config
           (constant_host
              (Response 200 ""
                 (Some (JObj [("version", JObj [("modelType", JStr "yolov8n")])]))))
           "key" "workspace" "coins" "3" "keypoint-detection" empty_world
           "https://api.roboflow.com/workspace/coins/3/?api_key=key&nocache=true"
           (Response 200 ""
              (Some (JObj [("version", JObj [("modelType", JStr "yolov8n")])])))
           [("version", JObj [("modelType", JStr "yolov8n")])]
           [("modelType", JStr "yolov8n")]);
    try reflexivity.
  unfold is_error_status. simpl. lia.
Defined.

(** For an answer that is a JSON object, [get_roboflow_dataset_type]
    returns the [type] of its [project] dictionary, and [object-detection]
    when there is no [project] or the project has no [type]. *)
Theorem dataset_type_defaults_to_object_detection
    (cfg : config) (h : host) (key workspace_id dataset : string)
    (w : world) (url : string) (r : response) (info project : pydict)
    (Hurl : wrap_url h (JStr (str_join "/"
               [API_BASE_URL cfg; workspace_id; dataset;
                ("?api_key=" ++ key ++ "&nocache=true")%string])) = ok url)
    (Hreq : requests_get h (trace w) url = ok r)
    (Hstatus : ~ is_error_status r)
    (Hjson : json_body r = Some (JObj info))
    (Hproject : dict_get "project" info = None \/
                dict_get "project" info = Some (JObj project)) :
  fst (get_roboflow_dataset_type cfg h key workspace_id dataset w) =
    ok (match dict_get "project" info with
        | None => JStr "object-detection"
        | Some _ => match dict_get "type" project with
                    | Some t => t
                    | None => JStr "object-detection"
                    end
        end).
Proof.
  pose proof (raise_for_status_ok r Hstatus) as Hok.
  unfold get_roboflow_dataset_type, wrap_roboflow_api_errors, requests_get_call,
    response_json, py_get, py_contains, dict_mem.
  run_code. rewrite Hurl. run_code. rewrite Hreq. run_code.
  rewrite Hok. run_code. rewrite Hjson. run_code.
  destruct Hproject as [Hp | Hp]; rewrite Hp; run_code; cbn [dict_get].
  - reflexivity.
  - destruct (dict_get "type" project); reflexivity.
Qed.

Lemma dataset_type_witness :
  fst (get_roboflow_dataset_type example_config
         (constant_host (Response 200 "" (Some (JObj [("project", JObj [])]))))
         "key" "workspace" "coins" empty_world)
    = ok (JStr "object-detection").
Proof.
  apply (dataset_type_defaults_to_object_detection example_config
           (constant_host (Response 200 "" (Some (JObj [("project", JObj [])]))))
           "key" "workspace" "coins" empty_world
           "https://api.roboflow.com/workspace/coins/?api_key=key&nocache=true"
           (Response 200 "" (Some (JObj [("project", JObj [])])))
           [("project", JObj [])] []);
    try reflexivity.
  - unfold is_error_status. simpl. lia.
  - right. reflexivity.
Defined.

(** [get_roboflow_workspace] returns the [workspace] of the answer; an
    answer without one, or with a null one, raises [WorkspaceLoadError], and so
    does an answer with a status from 400 to 599. *)
Theorem workspace_must_be_named
    (cfg : config) (h : host) (key : string) (w : world) (url : string)
    (r : response)
    (Hurl : wrap_url h (JStr (str_join "/"
               [API_BASE_URL cfg; ("?api_key=" ++ key)%string])) = ok url)
    (Hreq : requests_get h (trace w) url = ok r) :
  (is_error_status r ->
     fst (get_roboflow_workspace cfg h key w) = raise WorkspaceLoadError) /\
  (~ is_error_status r ->
     forall info,
       json_body r = Some (JObj info) ->
       fst (get_roboflow_workspace cfg h key w) =
         match dict_get "workspace" info with
         | None | Some JNull => raise WorkspaceLoadError
         | Some workspace_id => ok workspace_id
         end).
Proof.
  unfold get_roboflow_workspace, wrap_roboflow_api_errors, requests_get_call,
    response_json, py_get.
  split.
  - intros Hs. pose proof (raise_for_status_error r Hs) as Herr.
    run_code. rewrite Hurl. run_code. rewrite Hreq. run_code.
    rewrite Herr. reflexivity.
  - intros Hs info Hjson. pose proof (raise_for_status_ok r Hs) as Hok.
    run_code. rewrite Hurl. run_code. rewrite Hreq. run_code.
    rewrite Hok. run_code. rewrite Hjson. run_code.
    destruct (dict_get "workspace" info) as [[] |]; reflexivity.
Qed.

Lemma workspace_witness :
  fst (get_roboflow_workspace example_config
         (constant_host (Response 200 "" (Some (JObj [("workspace", JNull)]))))
         "key" empty_world)
    = raise WorkspaceLoadError.
Proof.
  destruct (workspace_must_be_named example_config
              (constant_host (Response 200 "" (Some (JObj [("workspace", JNull)]))))
              "key" empty_world "https://api.roboflow.com/?api_key=key"
              (Response 200 "" (Some (JObj [("workspace", JNull)])))
              eq_refl eq_refl) as (_ & Hok).
  apply (Hok (ltac:(unfold is_error_status; simpl; lia))
             [("workspace", JNull)] eq_refl).
Defined.

(** ** The weights of a core model *)










(** ** The text of an OCR result *)

Lemma text_lines_of_strings (l : list string) : text_lines (map JStr l) = ok l.
Proof.
  induction l as [| s r IH]; simpl; [reflexivity |]. rewrite IH. reflexivity.
Qed.

Lemma line_text_of_words (words : list string) :
  line_text (line_json words) = ok (str_join " " words).
Proof.
  unfold line_text, line_json. cbn [py_getitem dict_index dict_get String.eqb].
  simpl rbind.
  assert (Hvalues : comprehension (fun word => py_getitem word (JStr "value"))
                      (map word_json words) = ok (map JStr words)).
  { induction words as [| s r IH]; simpl; [reflexivity |].
    rewrite IH. reflexivity. }
  rewrite Hvalues. simpl rbind. unfold py_str_join.
  rewrite text_lines_of_strings. reflexivity.
Qed.

Lemma block_texts_of_lines (lines : list (list string)) :
  block_texts (block_json lines) = ok (map (str_join " ") lines).
Proof.
  unfold block_texts, block_json. simpl rbind.
  induction lines as [| l r IH]; simpl; [reflexivity |].
  rewrite line_text_of_words. simpl rbind. simpl in IH. rewrite IH. reflexivity.
Qed.

Lemma str_append_assoc (a b c : string) :
  ((a ++ b) ++ c = a ++ (b ++ c))%string.
Proof.
  induction a as [| x a IH]; [reflexivity |].
  change (String x ((a ++ b) ++ c) = String x (a ++ (b ++ c)))%string.
  f_equal. exact IH.
Qed.

Lemma str_join_app (sep : string) (a b : list string) :
  a <> [] -> b <> [] ->
  str_join sep (a ++ b) = (str_join sep a ++ sep ++ str_join sep b)%string.
Proof.
  intros Ha Hb. induction a as [| x a IH]; [done |].
  destruct a as [| y a'].
  - destruct b; [done | reflexivity].
  - change (str_join sep ((x :: y :: a') ++ b))
      with (x ++ sep ++ str_join sep ((y :: a') ++ b))%string.
    rewrite IH by discriminate.
    change (str_join sep (x :: y :: a'))
      with (x ++ sep ++ str_join sep (y :: a'))%string.
    rewrite !str_append_assoc. reflexivity.
Qed.

Lemma str_join_of_joined (sep : string) (lines : list (list string)) :
  Forall (fun l => l <> []) lines ->
  str_join sep (map (str_join sep) lines) = str_join sep (concat lines).
Proof.
  induction 1 as [| l r Hl Hr IH]; [reflexivity |].
  destruct r as [| l' r'].
  - simpl. by rewrite app_nil_r.
  - change (concat (l :: l' :: r')) with (l ++ concat (l' :: r')).
    rewrite str_join_app, <- IH; [reflexivity | exact Hl |].
    apply Forall_cons in Hr as [Hl' _]. simpl. destruct l'; [done | discriminate].
Qed.

(** For an export made of blocks of lines of words, the text [DocTR.infer]
    returns is the texts of the lines, in reading order, joined by one space,
    each line being its words joined by one space (a line without words
    contributes the empty text, and so two spaces in a row); when no line is
    empty this is every word of the page separated by single spaces. *)
Theorem ocr_text_is_the_words_in_reading_order
    (blocks : list (list (list string))) :
  ocr_text (export_json blocks)
    = ok (str_join " " (map (str_join " ") (concat blocks))) /\
  (Forall (fun l => l <> []) (concat blocks) ->
   ocr_text (export_json blocks) = ok (str_join " " (concat (concat blocks)))).
Proof.
  assert (Htexts : comprehension block_texts (map block_json blocks)
                   = ok (map (map (str_join " ")) blocks)).
  { induction blocks as [| b r IH]; simpl; [reflexivity |].
    rewrite block_texts_of_lines. simpl rbind. rewrite IH. reflexivity. }
  assert (Hrun : ocr_text (export_json blocks)
                 = ok (str_join " " (map (str_join " ") (concat blocks)))).
  { unfold ocr_text, export_json. simpl rbind. rewrite Htexts. simpl rbind.
    f_equal. f_equal. clear. induction blocks as [| b r IH]; simpl; [reflexivity |].
    by rewrite map_app, IH. }
  split; [exact Hrun |].
  intros Hlines. rewrite Hrun. f_equal. by apply str_join_of_joined.
Qed.

Lemma ocr_text_witness :
  ocr_text (export_json [[["a"]; []; ["b"]]]) = ok "a  b" /\
  ocr_text (export_json [[["Total"; "due"]; ["42"]]; [["Thank"; "you"]]])
    = ok "Total due 42 Thank you".
Proof.
  split.
  - destruct (ocr_text_is_the_words_in_reading_order [[["a"]; []; ["b"]]])
      as [Hlines _].
    exact Hlines.
  - destruct (ocr_text_is_the_words_in_reading_order
                [[["Total"; "due"]; ["42"]]; [["Thank"; "you"]]]) as [_ Hwords].
    apply Hwords. repeat constructor; discriminate.
Defined.
